(** * RoboGrammar design-search tasks

    A shallow embedding of [examples/design_search/tasks.py]: the
    [ForwardSpeedTask] base class with its perturbation hook [add_noise], and
    the six terrain classes with their constructors and [add_terrain] hooks.

    Conventions of the embedding.
    - Python numbers are exact rationals ([Q]): a float literal such as [0.1]
      is the rational one tenth, and rounding of binary floating point is not
      represented.  Equalities between computed coordinates are therefore
      stated with [==] (equality of rationals).
    - numpy's [RandomState] and the simulator handle are libraries outside
      this file's source.  The random stream is an interface
      ([NumpyRandom]): a seeding function and a function drawing one
      standard-normal variate; every theorem holds for every implementation
      of it.  The simulator is a recording handle: it keeps the robot count
      it was created with and logs, in order, every prop and every
      force/torque pair it is given.
    - A method that talks to the simulator is a computation in the monad
      [M]: it takes the simulator state and returns a result (a value or a
      raised exception) together with the new simulator state.
    - The two height expressions that come out as exactly -1.0 are also
      written out in IEEE binary64 ([Binary64]), to check that rounding
      does not disturb them. *)

From Stdlib Require Import ZArith QArith Qround Qminmax Qabs.
From Stdlib Require Import List String Bool Lia Lqa.
From Stdlib Require Floats.
Import ListNotations.
Local Open Scope Q_scope.

(* ================================================================= *)
(** ** Python values, exceptions, keyword arguments *)

Inductive exn := AssertionError | TypeError.

Inductive result (A : Type) :=
| Ok (a : A)
| Raise (e : exn).
Arguments Ok {A} a.
Arguments Raise {A} e.

Definition bind_result {A B} (r : result A) (k : A -> result B) : result B :=
  match r with
  | Ok a => k a
  | Raise e => Raise e
  end.

Notation "'let?' x := r 'in' k" := (bind_result r (fun x => k))
  (at level 10, x name, r at level 100, k at level 200).

(** A keyword argument carries an [int] or a [float]. *)
Inductive value :=
| VInt (n : Z)
| VFloat (x : Q).

(** The keyword arguments of a call, as the dictionary Python builds for
    [**kwargs]: the first binding of a name is the binding. *)
Definition kwargs := list (string * value).

Fixpoint lookup (name : string) (kw : kwargs) : option value :=
  match kw with
  | [] => None
  | (k, v) :: rest => if String.eqb k name then Some v else lookup name rest
  end.

Definition mem (name : string) (names : list string) : bool :=
  existsb (String.eqb name) names.

(** What is left in [**kwargs] once the named parameters are bound. *)
Definition without (names : list string) (kw : kwargs) : kwargs :=
  filter (fun kv => negb (mem (fst kv) names)) kw.

(** A parameter used as a float: an [int] argument is promoted. *)
Definition arg_float (name : string) (default : Q) (kw : kwargs) : result Q :=
  match lookup name kw with
  | None => Ok default
  | Some (VFloat x) => Ok x
  | Some (VInt n) => Ok (inject_Z n)
  end.

(** A parameter that is only stored: whatever was passed. *)
Definition arg_value (name : string) (default : value) (kw : kwargs) : value :=
  match lookup name kw with
  | None => default
  | Some v => v
  end.

(** A parameter used as a seed, which numpy accepts only as an integer.
    The embedding types the seeds: a float given for one raises
    [TypeError] when it is bound, where Python raises it once numpy is
    handed the seed. *)
Definition arg_int (name : string) (default : Z) (kw : kwargs) : result Z :=
  match lookup name kw with
  | None => Ok default
  | Some (VInt n) => Ok n
  | Some (VFloat _) => Raise TypeError
  end.

(** A function without [**kwargs] raises [TypeError] on a keyword that is
    not one of its parameters. *)
Definition reject_unexpected (params : list string) (kw : kwargs) : result unit :=
  if forallb (fun kv => mem (fst kv) params) kw then Ok tt else Raise TypeError.

(** [float(i)] for a loop index. *)
Definition of_nat (i : nat) : Q := inject_Z (Z.of_nat i).

(** The builtin [min(a, b)]: [b] when [b < a], otherwise [a]. *)
Definition py_min (a b : Q) : Q :=
  if Qlt_le_dec b a then b else a.

(** Element-wise arithmetic on two arrays of one length. *)
Definition map2 {A B C} (f : A -> B -> C) (xs : list A) (ys : list B) : list C :=
  map (fun p => f (fst p) (snd p)) (combine xs ys).

(** [enumerate(xs)] *)
Fixpoint enumerate_from {A} (i : nat) (xs : list A) : list (nat * A) :=
  match xs with
  | [] => []
  | x :: rest => (i, x) :: enumerate_from (S i) rest
  end.

(* ================================================================= *)
(** ** numpy *)

Module np.

(** [np.arange(start, stop, step)]: [ceil((stop - start) / step)] values
    [start + i * step]. *)
Definition arange (start stop step : Q) : list Q :=
  map (fun i => start + of_nat i * step)
      (seq 0 (Z.to_nat (Qceiling ((stop - start) / step)))).

(** [np.linspace(start, stop, num)] with the end point included: the values
    [i * step + start] for [step = (stop - start) / (num - 1)], the last one
    overwritten by [stop]. *)
Definition linspace (start stop : Q) (num : nat) : list Q :=
  match num with
  | O => []
  | S O => [start]
  | S div =>
      let step := (stop - start) / of_nat div in
      map (fun i => of_nat i * step + start) (seq 0 div) ++ [stop]
  end.

Definition concatenate (a b : list Q) : list Q := a ++ b.

(** [np.clip(a, a_min, a_max)] on one cell:
    [minimum(a_max, maximum(a, a_min))]. *)
Definition clip (a a_min a_max : Q) : Q := Qmin a_max (Qmax a a_min).

End np.

(** The legacy random stream [np.random.RandomState].  [RandomState seed] is
    a freshly seeded stream; [gauss] draws the next standard-normal variate
    and returns the advanced stream. *)
Class NumpyRandom := {
  stream : Type;
  RandomState : Z -> stream;
  gauss : stream -> Q * stream
}.

Section Normal.
Context {R : NumpyRandom}.

(** [rng.normal(loc, scale)]: one variate, scaled and shifted. *)
Definition normal (rng : stream) (loc scale : Q) : Q * stream :=
  let (g, rng') := gauss rng in (loc + scale * g, rng').

(** [rng.normal(loc, scale, size=n)]: [n] variates drawn in order. *)
Fixpoint normal_size (rng : stream) (loc scale : Q) (n : nat) : list Q * stream :=
  match n with
  | O => ([], rng)
  | S n' =>
      let (x, rng1) := normal rng loc scale in
      let (xs, rng2) := normal_size rng1 loc scale n' in
      (x :: xs, rng2)
  end.

(** [rng.normal(loc, scale, size=(rows, cols))]: filled row by row. *)
Fixpoint normal_size2 (rng : stream) (loc scale : Q) (rows cols : nat)
  : list (list Q) * stream :=
  match rows with
  | O => ([], rng)
  | S rows' =>
      let (row, rng1) := normal_size rng loc scale cols in
      let (others, rng2) := normal_size2 rng1 loc scale rows' cols in
      (row :: others, rng2)
  end.

(** The first [n] standard-normal variates of a stream, and the stream
    after them (used to state what the draws are). *)
Fixpoint variates (rng : stream) (n : nat) : list Q :=
  match n with
  | O => []
  | S n' => let (g, rng') := gauss rng in g :: variates rng' n'
  end.

Fixpoint advance (rng : stream) (n : nat) : stream :=
  match n with
  | O => rng
  | S n' => advance (snd (gauss rng)) n'
  end.

End Normal.

(* ================================================================= *)
(** ** pyrobotdesign: props, orientations, the objective, the simulator *)

Module rd.

Inductive PropShape := BOX | HEIGHTFIELD.

(** A static prop.  [density] is absent for a height field (its
    constructor takes none), [heightfield] is the grid of a height field,
    and [color] is [None] until the task assigns one. *)
Record prop := mk_prop {
  shape : PropShape;
  density : option Q;
  friction : Q;
  half_extents : list Q;
  heightfield : list (list Q);
  color : option (list Q)
}.

(** [rd.Prop(shape, density, friction, half_extents)] *)
Definition Prop_ (shape : PropShape) (density friction : Q)
           (half_extents : list Q) : prop :=
  mk_prop shape (Some density) friction half_extents [] None.

(** [rd.HeightfieldProp(friction, half_extents, heightfield)] *)
Definition HeightfieldProp (friction : Q) (half_extents : list Q)
           (heightfield : list (list Q)) : prop :=
  mk_prop HEIGHTFIELD None friction half_extents heightfield None.

(** [prop.color = c] *)
Definition set_color (p : prop) (c : list Q) : prop :=
  mk_prop (shape p) (density p) (friction p) (half_extents p)
          (heightfield p) (Some c).

(** [rd.Quaterniond(w, x, y, z)] *)
Record Quaterniond := mk_quat { qw : Q; qx : Q; qy : Q; qz : Q }.

Record DotProductObjective := mk_objective {
  base_dir_weight : list Q;
  base_up_weight : list Q;
  base_vel_weight : list Q
}.

(** One [add_prop] call: the prop, its position and its orientation. *)
Record placed := mk_placed {
  placed_prop : prop;
  position : list Q;
  orientation : Quaterniond
}.

(** One [add_link_force_torque] call. *)
Record wrench := mk_wrench {
  robot_idx : Z;
  link_idx : Z;
  force : list Q;
  torque : list Q
}.

(** The simulation handle. *)
Record Sim := mk_sim {
  robot_count : Z;
  props : list placed;
  wrenches : list wrench
}.

End rd.

(** Computations on the simulation handle that may raise. *)
Definition M (A : Type) : Type := rd.Sim -> result A * rd.Sim.

Definition ret {A} (a : A) : M A := fun sim => (Ok a, sim).

Definition bind {A B} (m : M A) (k : A -> M B) : M B :=
  fun sim =>
    match m sim with
    | (Ok a, sim') => k a sim'
    | (Raise e, sim') => (Raise e, sim')
    end.

Notation "x <- m ;; k" := (bind m (fun x => k))
  (at level 61, m at next level, right associativity).
Notation "m ;; k" := (bind m (fun _ => k))
  (at level 61, right associativity).

(** [assert b] *)
Definition py_assert (b : bool) : M unit :=
  fun sim => if b then (Ok tt, sim) else (Raise AssertionError, sim).

Definition get_robot_count : M Z :=
  fun sim => (Ok (rd.robot_count sim), sim).

Definition add_prop (p : rd.prop) (pos : list Q) (q : rd.Quaterniond) : M unit :=
  fun sim =>
    (Ok tt, rd.mk_sim (rd.robot_count sim)
                      (rd.props sim ++ [rd.mk_placed p pos q])
                      (rd.wrenches sim)).

Definition add_link_force_torque (robot link : Z) (f t : list Q) : M unit :=
  fun sim =>
    (Ok tt, rd.mk_sim (rd.robot_count sim)
                      (rd.props sim)
                      (rd.wrenches sim ++ [rd.mk_wrench robot link f t])).

(** The orientation every prop is placed with. *)
Definition upright : rd.Quaterniond := rd.mk_quat 1.0 0.0 0.0 0.0.

(* ================================================================= *)
(** ** ForwardSpeedTask *)

Module ForwardSpeedTask.

Record t := mk {
  time_step : value;
  discount_factor : value;
  interval : value;
  horizon : value;
  episode_len : value;
  noise_seed : Z;
  force_std : Q;
  torque_std : Q;
  objective_fn : rd.DotProductObjective;
  result_bound : Q
}.

Definition params : list string :=
  ["time_step"; "discount_factor"; "interval"; "horizon"; "episode_len";
   "noise_seed"; "force_std"; "torque_std"]%string.

Definition __init__ (kw : kwargs) : result t :=
  let? _ := reject_unexpected params kw in
  let time_step := arg_value "time_step" (VFloat (1.0 / 240)) kw in
  let discount_factor := arg_value "discount_factor" (VFloat 0.99) kw in
  let interval := arg_value "interval" (VInt 16) kw in
  let horizon := arg_value "horizon" (VInt 16) kw in
  let episode_len := arg_value "episode_len" (VInt 128) kw in
  let? noise_seed := arg_int "noise_seed" 0 kw in
  let? force_std := arg_float "force_std" 10.0 kw in
  let? torque_std := arg_float "torque_std" 0.0 kw in
  Ok (mk time_step discount_factor interval horizon episode_len
         noise_seed force_std torque_std
         (rd.mk_objective [-2.0; 0.0; 0.0] [0.0; 2.0; 0.0] [2.0; 0.0; 0.0])
         10.0).

Definition get_objective_fn (self : t) : rd.DotProductObjective :=
  objective_fn self.

Definition add_noise {R : NumpyRandom} (self : t) (time_step_idx : Z) : M unit :=
  n <- get_robot_count ;;
  py_assert (n =? 1)%Z ;;
  let noise_rng := RandomState (noise_seed self + time_step_idx) in
  let (force, noise_rng1) := normal_size noise_rng 0.0 (force_std self) 3 in
  let (torque, _) := normal_size noise_rng1 0.0 (torque_std self) 3 in
  add_link_force_torque 0 0 force torque.

End ForwardSpeedTask.

(* ================================================================= *)
(** ** The six terrain classes *)

Module FlatTerrainTask.

Record t := mk {
  base : ForwardSpeedTask.t;
  floor : rd.prop
}.

Definition __init__ (kw : kwargs) : result t :=
  let? base := ForwardSpeedTask.__init__ kw in
  Ok (mk base (rd.Prop_ rd.BOX 0.0 0.5 [40.0; 1.0; 10.0])).

Definition add_terrain (self : t) : M unit :=
  add_prop (floor self) [0.0; -1.0; 0.0] upright.

End FlatTerrainTask.

Module RidgedTerrainTask.

Record t := mk {
  base : ForwardSpeedTask.t;
  seed : Z;
  floor : rd.prop;
  bump : rd.prop
}.

Definition __init__ (kw : kwargs) : result t :=
  let? seed := arg_int "seed" 0 kw in
  let? base := ForwardSpeedTask.__init__ (without ["seed"%string] kw) in
  Ok (mk base seed
         (rd.Prop_ rd.BOX 0.0 0.5 [20.0; 1.0; 10.0])
         (rd.Prop_ rd.BOX 0.0 0.5 [0.1; 0.2; 10.0])).

(** The body of [for i in range(20)], over the remaining indices. *)
Fixpoint place_bumps {R : NumpyRandom} (self : t) (indices : list nat)
         (rng : stream) : M unit :=
  match indices with
  | [] => ret tt
  | i :: rest =>
      let (x, rng') := normal rng 0.5 0.1 in
      add_prop (bump self)
               [x + of_nat i; -0.2 + 0.02 * of_nat (i + 1); 0.0] upright ;;
      place_bumps self rest rng'
  end.

Definition add_terrain {R : NumpyRandom} (self : t) : M unit :=
  let rng := RandomState (seed self) in
  add_prop (floor self) [0.0; -1.0; 0.0] upright ;;
  place_bumps self (seq 0 20) rng.

End RidgedTerrainTask.

Module GapTerrainTask.

Record t := mk {
  base : ForwardSpeedTask.t;
  seed : Z;
  platform_x : list Q;
  platforms : list rd.prop;
  floor_x : Q;
  floor : rd.prop
}.

Section WithRandom.
Context {R : NumpyRandom}.

(** The locals of [__init__], one definition each. *)
Definition gap_centers (seed : Z) (x_max : Q) : list Q :=
  let rng := RandomState seed in
  let gap_centers := np.arange 0.5 x_max 1.0 in
  let (noise, _) := normal_size rng 0.0 0.1 (List.length gap_centers) in
  map2 Qplus gap_centers noise.

Definition gap_widths (gap_centers : list Q) : list Q :=
  np.linspace 0.1 0.5 (List.length gap_centers).

Definition platform_x_min (x_min : Q) (gap_centers gap_widths : list Q) : list Q :=
  np.concatenate [x_min] (map2 (fun c w => c + 0.5 * w) gap_centers gap_widths).

Definition platform_x_max (x_max : Q) (gap_centers gap_widths : list Q) : list Q :=
  np.concatenate (map2 (fun c w => c - 0.5 * w) gap_centers gap_widths) [x_max].

Definition centers_of (x_min x_max : list Q) : list Q :=
  map2 (fun lo hi => 0.5 * (lo + hi)) x_min x_max.

Definition half_widths_of (x_min x_max : list Q) : list Q :=
  map2 (fun lo hi => 0.5 * (hi - lo)) x_min x_max.

Definition platform_of (half_width : Q) : rd.prop :=
  rd.Prop_ rd.BOX 0.0 0.5 [half_width; 1.0; 10.0].

Definition __init__ (kw : kwargs) : result t :=
  let? x_min := arg_float "x_min" (-20.0) kw in
  let? x_max := arg_float "x_max" 20.0 kw in
  let? seed := arg_int "seed" 0 kw in
  let? base := ForwardSpeedTask.__init__
                 (without ["x_min"; "x_max"; "seed"]%string kw) in
  let centers := gap_centers seed x_max in
  let widths := gap_widths centers in
  let lo := platform_x_min x_min centers widths in
  let hi := platform_x_max x_max centers widths in
  Ok (mk base seed
         (centers_of lo hi)
         (map platform_of (half_widths_of lo hi))
         (0.5 * (x_min + x_max))
         (rd.Prop_ rd.BOX 0.0 0.5 [0.5 * (x_max - x_min); 1.0; 10.0])).

(** The body of the loop over [enumerate(zip(platform_x, platforms))]. *)
Fixpoint place_platforms (items : list (nat * (Q * rd.prop))) (rng : stream)
  : M unit :=
  match items with
  | [] => ret tt
  | (i, (x, platform)) :: rest =>
      let (dy, rng') := normal rng 0.0 (0.01 * of_nat i) in
      add_prop platform [x; -1.0 + dy; 0.0] upright ;;
      place_platforms rest rng'
  end.

Definition add_terrain (self : t) : M unit :=
  let rng := RandomState (seed self) in
  place_platforms
    (enumerate_from 0 (combine (platform_x self) (platforms self))) rng ;;
  add_prop (floor self) [floor_x self; -2.0; 0.0] upright.

End WithRandom.
End GapTerrainTask.

Module SteppedTerrainTask.

Record t := mk {
  base : ForwardSpeedTask.t;
  seed : Z;
  platform_x : list Q;
  platforms : list rd.prop
}.

Section WithRandom.
Context {R : NumpyRandom}.

Definition edge_x (seed : Z) (x_max : Q) : list Q :=
  let rng := RandomState seed in
  let edge_x := np.arange 0.0 x_max 0.5 in
  let (noise, _) := normal_size rng 0.0 0.1 (List.length edge_x) in
  map2 Qplus edge_x noise.

Definition platform_x_min (x_min : Q) (edge_x : list Q) : list Q :=
  np.concatenate [x_min] edge_x.

Definition platform_x_max (x_max : Q) (edge_x : list Q) : list Q :=
  np.concatenate edge_x [x_max].

Definition __init__ (kw : kwargs) : result t :=
  let? x_min := arg_float "x_min" (-20.0) kw in
  let? x_max := arg_float "x_max" 20.0 kw in
  let? seed := arg_int "seed" 0 kw in
  let? base := ForwardSpeedTask.__init__
                 (without ["x_min"; "x_max"; "seed"]%string kw) in
  let edges := edge_x seed x_max in
  let lo := platform_x_min x_min edges in
  let hi := platform_x_max x_max edges in
  Ok (mk base seed
         (GapTerrainTask.centers_of lo hi)
         (map GapTerrainTask.platform_of (GapTerrainTask.half_widths_of lo hi))).

(** The body of the loop, with the running height [y]. *)
Fixpoint place_platforms (items : list (nat * (Q * rd.prop))) (y : Q)
         (rng : stream) : M unit :=
  match items with
  | [] => ret tt
  | (i, (x, platform)) :: rest =>
      add_prop platform [x; y; 0.0] upright ;;
      let (dy, rng') := normal rng 0.0 (py_min (0.015 * of_nat i) 0.1) in
      place_platforms rest (y + dy) rng'
  end.

Definition add_terrain (self : t) : M unit :=
  let rng := RandomState (seed self) in
  place_platforms
    (enumerate_from 0 (combine (platform_x self) (platforms self))) (-1.0) rng.

End WithRandom.
End SteppedTerrainTask.

Module FrozenLakeTask.

Record t := mk {
  base : ForwardSpeedTask.t;
  floor : rd.prop
}.

Definition __init__ (kw : kwargs) : result t :=
  let? base := ForwardSpeedTask.__init__ kw in
  let floor := rd.Prop_ rd.BOX 0.0 0.05 [20.0; 1.0; 10.0] in
  Ok (mk base (rd.set_color floor [0.8; 0.9; 1.0])).

Definition add_terrain (self : t) : M unit :=
  add_prop (floor self) [0.0; -1.0; 0.0] upright.

End FrozenLakeTask.

Module HillTerrainTask.
Section WithRandom.
Context {R : NumpyRandom}.

Record t := mk {
  base : ForwardSpeedTask.t;
  seed : Z;
  rng : stream;
  heightfield : rd.prop
}.

Definition __init__ (kw : kwargs) : result t :=
  let? seed := arg_int "seed" 0 kw in
  let? base := ForwardSpeedTask.__init__ (without ["seed"%string] kw) in
  let rng := RandomState seed in
  let (cells, rng') := normal_size2 rng 0.5 0.125 97 33 in
  let y := map (map (fun c => np.clip c 0.0 1.0)) cells in
  Ok (mk base seed rng' (rd.HeightfieldProp 0.5 [30.0; 0.25; 10.0] y)).

Definition add_terrain (self : t) : M unit :=
  add_prop (heightfield self) [20.0; -0.25; 0.0] upright.

End WithRandom.
End HillTerrainTask.

(* ================================================================= *)
(** ** A task of any class *)

Inductive variant := FLAT | RIDGED | GAP | STEPPED | FROZEN_LAKE | HILL.

Section Tasks.
Context {R : NumpyRandom}.

Inductive Task :=
| Flat (t : FlatTerrainTask.t)
| Ridged (t : RidgedTerrainTask.t)
| Gap (t : GapTerrainTask.t)
| Stepped (t : SteppedTerrainTask.t)
| FrozenLake (t : FrozenLakeTask.t)
| Hill (t : HillTerrainTask.t).

(** Calling the class [v] with keyword arguments [kw]. *)
Definition construct (v : variant) (kw : kwargs) : result Task :=
  match v with
  | FLAT => let? t := FlatTerrainTask.__init__ kw in Ok (Flat t)
  | RIDGED => let? t := RidgedTerrainTask.__init__ kw in Ok (Ridged t)
  | GAP => let? t := GapTerrainTask.__init__ kw in Ok (Gap t)
  | STEPPED => let? t := SteppedTerrainTask.__init__ kw in Ok (Stepped t)
  | FROZEN_LAKE => let? t := FrozenLakeTask.__init__ kw in Ok (FrozenLake t)
  | HILL => let? t := HillTerrainTask.__init__ kw in Ok (Hill t)
  end.

(** The inherited part of a task. *)
Definition base (task : Task) : ForwardSpeedTask.t :=
  match task with
  | Flat t => FlatTerrainTask.base t
  | Ridged t => RidgedTerrainTask.base t
  | Gap t => GapTerrainTask.base t
  | Stepped t => SteppedTerrainTask.base t
  | FrozenLake t => FrozenLakeTask.base t
  | Hill t => HillTerrainTask.base t
  end.

(** The abstract method, dispatched on the class. *)
Definition add_terrain (task : Task) : M unit :=
  match task with
  | Flat t => FlatTerrainTask.add_terrain t
  | Ridged t => RidgedTerrainTask.add_terrain t
  | Gap t => GapTerrainTask.add_terrain t
  | Stepped t => SteppedTerrainTask.add_terrain t
  | FrozenLake t => FrozenLakeTask.add_terrain t
  | Hill t => HillTerrainTask.add_terrain t
  end.

Definition add_noise (task : Task) (time_step_idx : Z) : M unit :=
  ForwardSpeedTask.add_noise (base task) time_step_idx.

End Tasks.

(* ================================================================= *)
(** ** A replayed stream, to run the tasks on concrete inputs *)

Module Replay.

(** The first thirty variates of numpy's legacy stream for seed 0, to two
    decimals. *)
Definition table : list Q :=
  [ 1.76; 0.40; 0.98; 2.24; 1.87; -0.98; 0.95; -0.15; -0.10; 0.41;
    0.14; 1.45; 0.76; 0.12; 0.44; 0.33; 1.49; -0.21; 0.31; -0.85;
    -2.55; 0.65; 0.86; -0.74; 2.27; -1.45; 0.05; -0.19; 1.53; 1.47 ].

(** The stream seeded with [seed] replays the table cyclically, starting at
    entry [seed mod 30]; its state is the number of the next entry. For
    seed 0 it follows numpy's stream over the first thirty draws; for the
    other seeds it is a stand-in. *)
#[export] Instance replay : NumpyRandom := {
  stream := nat;
  RandomState seed := Z.to_nat (seed mod 30);
  gauss pos := (nth (pos mod 30) table 0, S pos)
}.

End Replay.

(* ================================================================= *)
(** ** Vocabulary of the statements *)

(** The simulator after [layout] has been inserted, in order. *)
Definition append_props (sim : rd.Sim) (layout : list rd.placed) : rd.Sim :=
  rd.mk_sim (rd.robot_count sim) (rd.props sim ++ layout) (rd.wrenches sim).

(** The simulator after one force/torque pair has been applied. *)
Definition append_wrench (sim : rd.Sim) (w : rd.wrench) : rd.Sim :=
  rd.mk_sim (rd.robot_count sim) (rd.props sim) (rd.wrenches sim ++ [w]).

(** [m] succeeds on every simulator and inserts exactly [layout]. *)
Definition inserts (m : M unit) (layout : list rd.placed) : Prop :=
  forall sim, m sim = (Ok tt, append_props sim layout).

(** Equality of two vectors, component by component. *)
Definition vec_eq (u v : list Q) : Prop := Forall2 Qeq u v.

(** The one placement expected of the flat terrain: a box with
    half-extents (40, 1, 10) and friction 0.5 at (0, -1, 0), upright. *)
Definition expected_flat_floor : rd.placed :=
  rd.mk_placed
    (rd.mk_prop rd.BOX (Some 0.0) 0.5 [40.0; 1.0; 10.0] [] None)
    [0.0; -1.0; 0.0] (rd.mk_quat 1.0 0.0 0.0 0.0).

(** The one placement expected of the frozen lake, with the half-extents
    of the source: (20, 1, 10), friction 0.05, tinted. *)
Definition expected_frozen_lake_floor : rd.placed :=
  rd.mk_placed
    (rd.mk_prop rd.BOX (Some 0.0) 0.05 [20.0; 1.0; 10.0] [] (Some [0.8; 0.9; 1.0]))
    [0.0; -1.0; 0.0] (rd.mk_quat 1.0 0.0 0.0 0.0).

(** The frozen lake as the specification words it: half-extents
    (20, 0.5, 10). *)
Definition frozen_lake_half_extents_as_specified : Prop :=
  exists t, FrozenLakeTask.__init__ [] = Ok t /\
            vec_eq (rd.half_extents (FrozenLakeTask.floor t)) [20.0; 0.5; 10.0].

(** The force/torque pair [add_noise] applies at step [k]. *)
Definition noise_wrench {R : NumpyRandom} (self : ForwardSpeedTask.t) (k : Z)
  : rd.wrench :=
  let rng := RandomState (ForwardSpeedTask.noise_seed self + k) in
  rd.mk_wrench 0 0
    (map (fun g => 0.0 + ForwardSpeedTask.force_std self * g) (variates rng 3))
    (map (fun g => 0.0 + ForwardSpeedTask.torque_std self * g)
         (variates (advance rng 3) 3)).

(** The arguments a terrain depends on: two calls agree on them when they
    pass the same [seed], [x_min] and [x_max] (or leave them out alike). *)
Definition same_terrain_arguments (kw1 kw2 : kwargs) : Prop :=
  lookup "seed" kw1 = lookup "seed" kw2 /\
  lookup "x_min" kw1 = lookup "x_min" kw2 /\
  lookup "x_max" kw1 = lookup "x_max" kw2.

(** The fields [add_noise] reads. *)
Definition same_noise_configuration (a b : ForwardSpeedTask.t) : Prop :=
  ForwardSpeedTask.noise_seed a = ForwardSpeedTask.noise_seed b /\
  ForwardSpeedTask.force_std a = ForwardSpeedTask.force_std b /\
  ForwardSpeedTask.torque_std a = ForwardSpeedTask.torque_std b.

(** [self.result_bound = b], were it assigned. *)
Definition set_result_bound (b : Q) (self : ForwardSpeedTask.t)
  : ForwardSpeedTask.t :=
  ForwardSpeedTask.mk
    (ForwardSpeedTask.time_step self) (ForwardSpeedTask.discount_factor self)
    (ForwardSpeedTask.interval self) (ForwardSpeedTask.horizon self)
    (ForwardSpeedTask.episode_len self) (ForwardSpeedTask.noise_seed self)
    (ForwardSpeedTask.force_std self) (ForwardSpeedTask.torque_std self)
    (ForwardSpeedTask.objective_fn self) b.

(** The props a terrain hook inserts, as lists. *)
Section Layouts.
Context {R : NumpyRandom}.

Definition with_result_bound (b : Q) (task : Task) : Task :=
  match task with
  | Flat t =>
      Flat (FlatTerrainTask.mk (set_result_bound b (FlatTerrainTask.base t))
                               (FlatTerrainTask.floor t))
  | Ridged t =>
      Ridged (RidgedTerrainTask.mk
                (set_result_bound b (RidgedTerrainTask.base t))
                (RidgedTerrainTask.seed t) (RidgedTerrainTask.floor t)
                (RidgedTerrainTask.bump t))
  | Gap t =>
      Gap (GapTerrainTask.mk
             (set_result_bound b (GapTerrainTask.base t))
             (GapTerrainTask.seed t) (GapTerrainTask.platform_x t)
             (GapTerrainTask.platforms t) (GapTerrainTask.floor_x t)
             (GapTerrainTask.floor t))
  | Stepped t =>
      Stepped (SteppedTerrainTask.mk
                 (set_result_bound b (SteppedTerrainTask.base t))
                 (SteppedTerrainTask.seed t) (SteppedTerrainTask.platform_x t)
                 (SteppedTerrainTask.platforms t))
  | FrozenLake t =>
      FrozenLake (FrozenLakeTask.mk
                    (set_result_bound b (FrozenLakeTask.base t))
                    (FrozenLakeTask.floor t))
  | Hill t =>
      Hill (HillTerrainTask.mk
              (set_result_bound b (HillTerrainTask.base t))
              (HillTerrainTask.seed t) (HillTerrainTask.rng t)
              (HillTerrainTask.heightfield t))
  end.

Fixpoint bumps_placed (self : RidgedTerrainTask.t) (indices : list nat)
         (rng : stream) : list rd.placed :=
  match indices with
  | [] => []
  | i :: rest =>
      let (x, rng') := normal rng 0.5 0.1 in
      rd.mk_placed (RidgedTerrainTask.bump self)
                   [x + of_nat i; -0.2 + 0.02 * of_nat (i + 1); 0.0] upright
      :: bumps_placed self rest rng'
  end.

Fixpoint gap_placed (items : list (nat * (Q * rd.prop))) (rng : stream)
  : list rd.placed :=
  match items with
  | [] => []
  | (i, (x, platform)) :: rest =>
      let (dy, rng') := normal rng 0.0 (0.01 * of_nat i) in
      rd.mk_placed platform [x; -1.0 + dy; 0.0] upright :: gap_placed rest rng'
  end.

Fixpoint stepped_placed (items : list (nat * (Q * rd.prop))) (y : Q)
         (rng : stream) : list rd.placed :=
  match items with
  | [] => []
  | (i, (x, platform)) :: rest =>
      let (dy, rng') := normal rng 0.0 (py_min (0.015 * of_nat i) 0.1) in
      rd.mk_placed platform [x; y; 0.0] upright
      :: stepped_placed rest (y + dy) rng'
  end.

Definition layout (task : Task) : list rd.placed :=
  match task with
  | Flat t => [rd.mk_placed (FlatTerrainTask.floor t) [0.0; -1.0; 0.0] upright]
  | Ridged t =>
      rd.mk_placed (RidgedTerrainTask.floor t) [0.0; -1.0; 0.0] upright
      :: bumps_placed t (seq 0 20) (RandomState (RidgedTerrainTask.seed t))
  | Gap t =>
      gap_placed
        (enumerate_from 0 (combine (GapTerrainTask.platform_x t)
                                   (GapTerrainTask.platforms t)))
        (RandomState (GapTerrainTask.seed t))
      ++ [rd.mk_placed (GapTerrainTask.floor t)
                       [GapTerrainTask.floor_x t; -2.0; 0.0] upright]
  | Stepped t =>
      stepped_placed
        (enumerate_from 0 (combine (SteppedTerrainTask.platform_x t)
                                   (SteppedTerrainTask.platforms t)))
        (-1.0) (RandomState (SteppedTerrainTask.seed t))
  | FrozenLake t =>
      [rd.mk_placed (FrozenLakeTask.floor t) [0.0; -1.0; 0.0] upright]
  | Hill t =>
      [rd.mk_placed (HillTerrainTask.heightfield t) [20.0; -0.25; 0.0] upright]
  end.

End Layouts.

(** Reading a placed box along x: its centre, its half-width, the two
    edges [centre - half_width] and [centre + half_width], and its height. *)
Definition center (pl : rd.placed) : Q := nth 0 (rd.position pl) 0.
Definition height (pl : rd.placed) : Q := nth 1 (rd.position pl) 0.
Definition half_width (pl : rd.placed) : Q :=
  nth 0 (rd.half_extents (rd.placed_prop pl)) 0.
Definition left_edge (pl : rd.placed) : Q := center pl - half_width pl.
Definition right_edge (pl : rd.placed) : Q := center pl + half_width pl.

(** The box [pl] occupies the interval [iv] of the x axis. *)
Definition spans (pl : rd.placed) (iv : Q * Q) : Prop :=
  left_edge pl == fst iv /\ right_edge pl == snd iv.

(** The intervals between consecutive boundaries
    [a, e0, e1, ..., b]: [(a, e0); (e0, e1); ...; (e_last, b)]. *)
Fixpoint chain (a : Q) (edges : list Q) (b : Q) : list (Q * Q) :=
  match edges with
  | [] => [(a, b)]
  | e :: rest => (a, e) :: chain e rest b
  end.

(** The intervals left between [a] and [b] by gaps given as
    (centre, width): each gap removes [centre - width/2, centre + width/2]. *)
Fixpoint gap_chain (a : Q) (gaps : list (Q * Q)) (b : Q) : list (Q * Q) :=
  match gaps with
  | [] => [(a, b)]
  | (c, w) :: rest => (a, c - 0.5 * w) :: gap_chain (c + 0.5 * w) rest b
  end.

Fixpoint nondecreasing (l : list Q) : Prop :=
  match l with
  | [] => True
  | a :: rest =>
      match rest with
      | [] => True
      | b :: _ => a <= b /\ nondecreasing rest
      end
  end.

(** Intervals in order: each has its ends in order and ends where or before
    the next begins. *)
Fixpoint ordered (ivs : list (Q * Q)) : Prop :=
  match ivs with
  | [] => True
  | iv :: rest =>
      fst iv <= snd iv /\
      match rest with
      | [] => True
      | next :: _ => snd iv <= fst next
      end /\
      ordered rest
  end.

(** No box reaches into a later one. *)
Definition non_overlapping (ps : list rd.placed) : Prop :=
  ForallOrdPairs (fun p q => right_edge p <= left_edge q) ps.




Definition Qsum (l : list Q) : Q := fold_right Qplus 0 l.

(** The standard deviation of the height increment drawn after platform
    [i] of the stepped terrain. *)
Definition step_std (i : nat) : Q := py_min (0.015 * of_nat i) 0.1.

(** The centre and the box built for one interval. *)
Definition box_of (iv : Q * Q) : Q * rd.prop :=
  (0.5 * (fst iv + snd iv), GapTerrainTask.platform_of (0.5 * (snd iv - fst iv))).

(** The platforms of the gap terrain, without the floor under them. *)
Definition gap_platforms {R : NumpyRandom} (t : GapTerrainTask.t)
  : list rd.placed :=
  gap_placed
    (enumerate_from 0 (combine (GapTerrainTask.platform_x t)
                               (GapTerrainTask.platforms t)))
    (RandomState (GapTerrainTask.seed t)).


(** The nominal gap centres and the gap widths of the default gap
    terrain ([x_max = 20]), evaluated. *)
Definition default_gap_grid : list Q :=
  Eval vm_compute in np.arange 0.5 20.0 1.0.

Definition default_gap_widths : list Q :=
  Eval vm_compute in np.linspace 0.1 0.5 20.

(** A variate within two and a half standard deviations. *)
Definition moderate (g : Q) : Prop := -2.5 <= g <= 2.5.

(** The heights of the first platforms in IEEE binary64: the expressions
    of the two loops, with [normal(loc, scale)] as [loc + scale * g]. *)
Module Binary64.
Import Floats.
#[local] Set Warnings "-inexact-float".

(** A variate is ordinary when it is a number: zero or finite, neither an
    infinity nor a NaN. *)
Definition ordinary (g : float) : Prop :=
  match Prim2SF g with
  | S754_zero _ | S754_finite _ _ _ => True
  | _ => False
  end.

(** [min(a, b)] *)
Definition min64 (a b : float) : float :=
  if (b <? a)%float then b else a.

(** [-1.0 + rng.normal(0.0, 0.01 * i)] *)
Definition gap_height (i g : float) : float :=
  (-1 + (0 + 0.01 * i * g))%float.

(** [y += rng.normal(0.0, min(0.015 * i, 0.1))] *)
Definition stepped_next_height (y i g : float) : float :=
  (y + (0 + min64 (0.015 * i) 0.1 * g))%float.

End Binary64.

(** [result_bound] as the specification words it: a constructor parameter
    of every class. *)
Definition result_bound_is_a_parameter : Prop :=
  forall (R : NumpyRandom) (v : variant) (b : Q),
  exists task,
    construct v [("result_bound"%string, VFloat b)] = Ok task /\
    ForwardSpeedTask.result_bound (base task) == b.

(* ================================================================= *)
(** ** Vocabulary of the further properties *)

(** The keyword parameters a class declares itself, before [**kwargs]. *)
Definition own_params (v : variant) : list string :=
  match v with
  | FLAT | FROZEN_LAKE => []
  | RIDGED | HILL => ["seed"]
  | GAP | STEPPED => ["x_min"; "x_max"; "seed"]
  end%string.

(** Every keyword a class accepts: its own and the base class's. *)
Definition accepted (v : variant) : list string :=
  own_params v ++ ForwardSpeedTask.params.




(* ================================================================= *)
(** ** Proof tools *)

(** Peels one successful binding off a constructor equation. *)
Ltac peel H :=
  match type of H with
  | bind_result ?r _ = Ok _ =>
      let E := fresh "E" in
      destruct r eqn:E; cbn [bind_result] in H; [|discriminate]
  end.

(** Peels every binding of the constructor equations in the context. *)
Ltac peel_all :=
  repeat match goal with
         | H : bind_result ?r _ = Ok _ |- _ =>
             destruct r; cbn [bind_result] in *; try discriminate
         end.

(** Decides an equality of two concrete vectors. *)
Ltac vec_compute :=
  unfold vec_eq;
  repeat (apply Forall2_cons; [vm_compute; reflexivity|]);
  apply Forall2_nil.

(* ================================================================= *)
(** ** The model on small inputs *)

Example arange_half_steps : vec_eq (np.arange 0.5 3.0 1.0) [0.5; 1.5; 2.5].
Proof. vec_compute. Qed.

Example arange_stops_before_stop : vec_eq (np.arange 0.0 1.2 0.5) [0; 0.5; 1].
Proof. vec_compute. Qed.

Example arange_empty : np.arange 0.5 0.0 1.0 = [].
Proof. reflexivity. Qed.

Example linspace_three : vec_eq (np.linspace 0.1 0.5 3) [0.1; 0.3; 0.5].
Proof. vec_compute. Qed.

Example linspace_one : np.linspace 0.1 0.5 1 = [0.1].
Proof. reflexivity. Qed.

Example clip_low : np.clip (-0.3) 0.0 1.0 == 0.
Proof. vm_compute. reflexivity. Qed.

Example clip_high : np.clip 1.7 0.0 1.0 == 1.
Proof. vm_compute. reflexivity. Qed.

Example step_std_early : step_std 2 == 0.03.
Proof. vm_compute. reflexivity. Qed.

Example step_std_capped : step_std 7 == 0.1.
Proof. vm_compute. reflexivity. Qed.

Example flat_has_no_seed :
  FlatTerrainTask.__init__ [("seed"%string, VInt 1)] = Raise TypeError.
Proof. reflexivity. Qed.

Example int_promoted_to_float :
  exists t, FlatTerrainTask.__init__ [("force_std"%string, VInt 3)] = Ok t /\
            ForwardSpeedTask.force_std (FlatTerrainTask.base t) == 3.
Proof. eexists. split; reflexivity. Qed.

(** The ridged terrain: a floor and twenty bumps, the last at height
    [-0.2 + 0.02 * 20 = 0.2]. *)
Example ridged_default_layout :
  exists t,
    RidgedTerrainTask.__init__ [] = Ok t /\
    List.length (layout (R := Replay.replay) (Ridged t)) = 21%nat /\
    height (last (layout (R := Replay.replay) (Ridged t))
                 expected_flat_floor) == 0.2.
Proof.
  eexists. split; [reflexivity|]. split; vm_compute; reflexivity.
Qed.

(** Step 3 of a default task on the replayed stream: the stream is seeded
    with 0 + 3, the force is ten times the variates 2.24, 1.87, -0.98 and
    the torque is zero. *)
Example add_noise_step_three :
  exists t,
    FlatTerrainTask.__init__ [] = Ok t /\
    let r := add_noise (R := Replay.replay) (Flat t) 3 (rd.mk_sim 1 [] []) in
    fst r = Ok tt /\
    match rd.wrenches (snd r) with
    | [w] => vec_eq (rd.force w) [22.4; 18.7; -9.8] /\
             vec_eq (rd.torque w) [0; 0; 0]
    | _ => False
    end.
Proof.
  eexists. split; [reflexivity|]. split; [reflexivity|].
  vm_compute. split; repeat constructor.
Qed.

Example add_noise_two_robots :
  exists t,
    FlatTerrainTask.__init__ [] = Ok t /\
    add_noise (R := Replay.replay) (Flat t) 3 (rd.mk_sim 2 [] [])
    = (Raise AssertionError, rd.mk_sim 2 [] []).
Proof. eexists. split; reflexivity. Qed.

(* ================================================================= *)
(** ** The random stream *)

Section NormalFacts.
Context {R : NumpyRandom}.

Lemma normal_size_variates (rng : stream) (loc scale : Q) (n : nat) :
  normal_size rng loc scale n =
  (map (fun g => loc + scale * g) (variates rng n), advance rng n).
Proof.
  revert rng; induction n as [|n IH]; intros rng; simpl.
  - reflexivity.
  - unfold normal. destruct (gauss rng) as [g rng'] eqn:E. simpl.
    rewrite IH. reflexivity.
Qed.

Lemma variates_length (rng : stream) (n : nat) :
  List.length (variates rng n) = n.
Proof.
  revert rng; induction n as [|n IH]; intros rng; simpl.
  - reflexivity.
  - destruct (gauss rng) as [g rng']. simpl. now rewrite IH.
Qed.

Lemma normal_size_length (rng : stream) (loc scale : Q) (n : nat) :
  List.length (fst (normal_size rng loc scale n)) = n.
Proof.
  rewrite normal_size_variates. simpl.
  rewrite length_map. apply variates_length.
Qed.

End NormalFacts.

(* ================================================================= *)
(** ** Inserting props *)

Lemma append_props_nil (sim : rd.Sim) : append_props sim [] = sim.
Proof.
  destruct sim as [n ps ws]. unfold append_props. simpl.
  now rewrite app_nil_r.
Qed.

Lemma append_props_app (sim : rd.Sim) (l1 l2 : list rd.placed) :
  append_props (append_props sim l1) l2 = append_props sim (l1 ++ l2).
Proof.
  unfold append_props. simpl. now rewrite app_assoc.
Qed.

Lemma inserts_ret : inserts (ret tt) [].
Proof.
  intros sim. unfold ret. now rewrite append_props_nil.
Qed.

Lemma inserts_add_prop (p : rd.prop) (pos : list Q) (q : rd.Quaterniond) :
  inserts (add_prop p pos q) [rd.mk_placed p pos q].
Proof.
  intros sim. reflexivity.
Qed.

Lemma inserts_seq (m1 m2 : M unit) (l1 l2 : list rd.placed) :
  inserts m1 l1 -> inserts m2 l2 -> inserts (m1 ;; m2) (l1 ++ l2).
Proof.
  intros H1 H2 sim. unfold bind. rewrite H1, H2.
  now rewrite append_props_app.
Qed.

Lemma inserts_unique (m : M unit) (l1 l2 : list rd.placed) :
  inserts m l1 -> inserts m l2 -> l1 = l2.
Proof.
  intros H1 H2.
  specialize (H1 (rd.mk_sim 0 [] [])). specialize (H2 (rd.mk_sim 0 [] [])).
  rewrite H1 in H2. unfold append_props in H2. simpl in H2.
  now inversion H2.
Qed.

(* ================================================================= *)
(** ** Flat ground and the frozen lake *)

(** C6. A [FlatTerrainTask] built with default arguments inserts, on
    [add_terrain], exactly one prop: a box with half-extents (40, 1, 10),
    friction 0.5, at (0, -1, 0) with the identity quaternion; the result is
    the same for every random stream, so no draw enters it. *)
Theorem flat_default_terrain :
  exists t,
    FlatTerrainTask.__init__ [] = Ok t /\
    (forall (R : NumpyRandom),
        inserts (add_terrain (Flat t)) [expected_flat_floor]) /\
    (forall (R1 R2 : NumpyRandom) sim,
        @add_terrain R1 (Flat t) sim = @add_terrain R2 (Flat t) sim).
Proof.
  eexists. split; [reflexivity|]. split.
  - intros R sim. reflexivity.
  - intros R1 R2 sim. reflexivity.
Qed.

(** C7, as stated: the frozen lake's box does not have half-extents
    (20, 0.5, 10); its second half-extent is 1. *)
Lemma frozen_lake_half_extents_differ : ~ frozen_lake_half_extents_as_specified.
Proof.
  intros [t [Hinit Hvec]].
  vm_compute in Hinit. inversion Hinit; subst t; clear Hinit.
  simpl in Hvec. unfold vec_eq in Hvec.
  inversion Hvec as [|a b u v _ Htail]; subst.
  inversion Htail as [|a b u v Hy _]; subst.
  vm_compute in Hy. discriminate.
Qed.

(** C7, amended. A [FrozenLakeTask] built with default arguments inserts a
    single box with half-extents (20, 1, 10), friction 0.05 and color
    (0.8, 0.9, 1.0) at (0, -1, 0) with the identity quaternion, whatever the
    random stream; against the flat task's box it has the same shape,
    density, position and orientation; the flat box has half-extents
    (40, 1, 10), friction 0.5 and no color of its own. *)
Theorem frozen_lake_default_terrain :
  exists t,
    FrozenLakeTask.__init__ [] = Ok t /\
    (forall (R : NumpyRandom),
        inserts (add_terrain (FrozenLake t)) [expected_frozen_lake_floor]) /\
    (forall (R1 R2 : NumpyRandom) sim,
        @add_terrain R1 (FrozenLake t) sim = @add_terrain R2 (FrozenLake t) sim) /\
    let lake := expected_frozen_lake_floor in
    let flat := expected_flat_floor in
    rd.shape (rd.placed_prop lake) = rd.shape (rd.placed_prop flat) /\
    rd.density (rd.placed_prop lake) = rd.density (rd.placed_prop flat) /\
    rd.position lake = rd.position flat /\
    rd.orientation lake = rd.orientation flat /\
    vec_eq (rd.half_extents (rd.placed_prop lake)) [20; 1; 10] /\
    vec_eq (rd.half_extents (rd.placed_prop flat)) [40; 1; 10] /\
    rd.friction (rd.placed_prop lake) == 1 # 20 /\
    rd.friction (rd.placed_prop flat) == 1 # 2 /\
    rd.color (rd.placed_prop lake) = Some [0.8; 0.9; 1.0] /\
    rd.color (rd.placed_prop flat) = None.
Proof.
  eexists. split; [reflexivity|].
  repeat split; try (intros; reflexivity);
    repeat constructor; reflexivity.
Qed.

(* ================================================================= *)
(** ** The perturbation hook *)

Section NoiseFacts.
Context {R : NumpyRandom}.

Lemma add_noise_one_robot (self : ForwardSpeedTask.t) (k : Z) (sim : rd.Sim) :
  rd.robot_count sim = 1%Z ->
  ForwardSpeedTask.add_noise self k sim =
  (Ok tt, append_wrench sim (noise_wrench self k)).
Proof.
  intros Hcount.
  unfold ForwardSpeedTask.add_noise, bind, get_robot_count, py_assert.
  rewrite Hcount. simpl Z.eqb. cbv iota.
  rewrite !normal_size_variates. reflexivity.
Qed.


End NoiseFacts.



(* ================================================================= *)
(** ** Keyword arguments and constructors *)

Lemma reject_unexpected_lookup (params : list string) (kw : kwargs) (name : string) :
  reject_unexpected params kw = Ok tt ->
  mem name params = false ->
  lookup name kw = None.
Proof.
  unfold reject_unexpected. intros H Hname.
  destruct (forallb _ kw) eqn:Hall; [clear H | discriminate].
  induction kw as [|[k v] rest IH]; simpl in *; [reflexivity|].
  apply andb_true_iff in Hall. destruct Hall as [Hk Hrest].
  destruct (String.eqb_spec k name) as [->|_].
  - rewrite Hname in Hk. discriminate.
  - now apply IH.
Qed.

Lemma lookup_without (names : list string) (kw : kwargs) (name : string) :
  mem name names = false ->
  lookup name (without names kw) = lookup name kw.
Proof.
  intros Hname. unfold without.
  induction kw as [|[k v] rest IH]; simpl; [reflexivity|].
  destruct (String.eqb_spec k name) as [->|NE].
  - rewrite Hname. simpl. now rewrite String.eqb_refl.
  - destruct (negb (mem k names)); simpl; [|exact IH].
    destruct (String.eqb_spec k name) as [E|_]; [contradiction|exact IH].
Qed.

Lemma base_init_result_bound (kw : kwargs) (self : ForwardSpeedTask.t) :
  ForwardSpeedTask.__init__ kw = Ok self ->
  ForwardSpeedTask.result_bound self = 10.0 /\
  lookup "result_bound" kw = None.
Proof.
  unfold ForwardSpeedTask.__init__. intros H.
  destruct (reject_unexpected ForwardSpeedTask.params kw) as [[]|] eqn:Hrej;
    cbn [bind_result] in H; [|discriminate].
  split.
  - repeat match type of H with
           | bind_result ?r _ = Ok _ =>
               destruct r; cbn [bind_result] in H; [|discriminate]
           end.
    inversion H. reflexivity.
  - eapply reject_unexpected_lookup; [exact Hrej | reflexivity].
Qed.

Section ConstructFacts.
Context {R : NumpyRandom}.

Lemma construct_result_bound (v : variant) (kw : kwargs) (task : Task) :
  construct v kw = Ok task ->
  ForwardSpeedTask.result_bound (base task) = 10.0 /\
  lookup "result_bound" kw = None.
Proof.
  intros H. destruct v; unfold construct in H; peel H;
    inversion H; subst task; clear H; cbn [base].
  - unfold FlatTerrainTask.__init__ in E. peel E. inversion E; subst; simpl.
    now apply base_init_result_bound.
  - unfold RidgedTerrainTask.__init__ in E. do 2 peel E. inversion E; subst; simpl.
    apply base_init_result_bound in E1. destruct E1 as [Hb Hl].
    split; [exact Hb|]. now rewrite lookup_without in Hl.
  - unfold GapTerrainTask.__init__ in E. do 4 peel E. inversion E; subst; simpl.
    apply base_init_result_bound in E3. destruct E3 as [Hb Hl].
    split; [exact Hb|]. now rewrite lookup_without in Hl.
  - unfold SteppedTerrainTask.__init__ in E. do 4 peel E. inversion E; subst; simpl.
    apply base_init_result_bound in E3. destruct E3 as [Hb Hl].
    split; [exact Hb|]. now rewrite lookup_without in Hl.
  - unfold FrozenLakeTask.__init__ in E. peel E. inversion E; subst; simpl.
    now apply base_init_result_bound.
  - unfold HillTerrainTask.__init__ in E. do 2 peel E.
    destruct (normal_size2 _ _ _ _ _) as [cells rng'].
    inversion E; subst; simpl.
    apply base_init_result_bound in E1. destruct E1 as [Hb Hl].
    split; [exact Hb|]. now rewrite lookup_without in Hl.
Qed.

Lemma operations_ignore_result_bound (task : Task) (b : Q) :
  (forall k sim, add_noise (with_result_bound b task) k sim = add_noise task k sim) /\
  (forall sim, add_terrain (with_result_bound b task) sim = add_terrain task sim).
Proof.
  split; intros; destruct task; reflexivity.
Qed.

End ConstructFacts.

(** C9, as stated: [result_bound] is not a constructor parameter; a call
    passing it is rejected with [TypeError]. *)
Lemma result_bound_keyword_rejected : ~ result_bound_is_a_parameter.
Proof.
  intros H.
  destruct (H Replay.replay FLAT 5.0) as [task [Hinit _]].
  vm_compute in Hinit. discriminate.
Qed.

(** C9, amended. Whatever class is constructed and with whatever accepted
    keyword arguments, [result_bound] is the constant 10.0 and was not
    among the keywords; and no operation reads it: with any other value in
    the field, [add_noise] and [add_terrain] return the same result and
    leave the same simulator, so none of them fails on account of it. *)
Theorem result_bound_is_constant :
  forall (R : NumpyRandom) (v : variant) (kw : kwargs) (task : Task),
    construct v kw = Ok task ->
    ForwardSpeedTask.result_bound (base task) = 10.0 /\
    lookup "result_bound" kw = None /\
    forall b,
      (forall k sim, add_noise (with_result_bound b task) k sim = add_noise task k sim) /\
      (forall sim, add_terrain (with_result_bound b task) sim = add_terrain task sim).
Proof.
  intros R v kw task H.
  destruct (construct_result_bound v kw task H) as [Hb Hl].
  split; [exact Hb|]. split; [exact Hl|].
  intros b. apply operations_ignore_result_bound.
Qed.

(* ================================================================= *)
(** ** What the terrain hooks insert *)

Section TerrainFacts.
Context {R : NumpyRandom}.

Lemma place_bumps_inserts (self : RidgedTerrainTask.t) (indices : list nat)
      (rng : stream) :
  inserts (RidgedTerrainTask.place_bumps self indices rng)
          (bumps_placed self indices rng).
Proof.
  revert rng. induction indices as [|i rest IH]; intros rng; simpl.
  - apply inserts_ret.
  - destruct (normal rng 0.5 0.1) as [x rng'].
    apply (inserts_seq _ _ [_] _); [apply inserts_add_prop | apply IH].
Qed.

Lemma gap_place_platforms_inserts (items : list (nat * (Q * rd.prop)))
      (rng : stream) :
  inserts (GapTerrainTask.place_platforms items rng) (gap_placed items rng).
Proof.
  revert rng. induction items as [|[i [x platform]] rest IH]; intros rng; simpl.
  - apply inserts_ret.
  - destruct (normal rng 0.0 (0.01 * of_nat i)) as [dy rng'].
    apply (inserts_seq _ _ [_] _); [apply inserts_add_prop | apply IH].
Qed.

Lemma stepped_place_platforms_inserts (items : list (nat * (Q * rd.prop)))
      (y : Q) (rng : stream) :
  inserts (SteppedTerrainTask.place_platforms items y rng)
          (stepped_placed items y rng).
Proof.
  revert y rng.
  induction items as [|[i [x platform]] rest IH]; intros y rng; simpl.
  - apply inserts_ret.
  - destruct (normal rng 0.0 (py_min (0.015 * of_nat i) 0.1)) as [dy rng'].
    apply (inserts_seq _ _ [_] _); [apply inserts_add_prop | apply IH].
Qed.

(** Every terrain hook succeeds on every simulator and appends the task's
    layout to the props already there. *)
Lemma add_terrain_inserts (task : Task) :
  inserts (add_terrain task) (layout task).
Proof.
  destruct task as [t|t|t|t|t|t]; cbn [add_terrain layout].
  - apply inserts_add_prop.
  - unfold RidgedTerrainTask.add_terrain.
    apply (inserts_seq _ _ [_] _);
      [apply inserts_add_prop | apply place_bumps_inserts].
  - unfold GapTerrainTask.add_terrain.
    apply inserts_seq;
      [apply gap_place_platforms_inserts | apply inserts_add_prop].
  - apply stepped_place_platforms_inserts.
  - apply inserts_add_prop.
  - apply inserts_add_prop.
Qed.

(** Two constructions of one class that agree on [seed], [x_min] and
    [x_max] give tasks with one layout. *)
Lemma construct_layout (v : variant) (kw1 kw2 : kwargs) (task1 task2 : Task) :
  construct v kw1 = Ok task1 ->
  construct v kw2 = Ok task2 ->
  same_terrain_arguments kw1 kw2 ->
  layout task1 = layout task2.
Proof.
  intros H1 H2 (Hseed & Hmin & Hmax).
  destruct v; unfold construct in H1, H2; peel H1; peel H2;
    inversion H1; subst task1; inversion H2; subst task2; clear H1 H2.
  - unfold FlatTerrainTask.__init__ in E, E0. peel_all.
    inversion E; inversion E0; reflexivity.
  - unfold RidgedTerrainTask.__init__, arg_int in E, E0.
    rewrite Hseed in E. peel_all.
    inversion E; inversion E0; reflexivity.
  - unfold GapTerrainTask.__init__, arg_float, arg_int in E, E0.
    rewrite Hseed, Hmin, Hmax in E. peel_all.
    inversion E; inversion E0; reflexivity.
  - unfold SteppedTerrainTask.__init__, arg_float, arg_int in E, E0.
    rewrite Hseed, Hmin, Hmax in E. peel_all.
    inversion E; inversion E0; reflexivity.
  - unfold FrozenLakeTask.__init__ in E, E0. peel_all.
    inversion E; inversion E0; reflexivity.
  - unfold HillTerrainTask.__init__, arg_int in E, E0.
    rewrite Hseed in E. peel_all.
    destruct (normal_size2 _ _ _ _ _) as [cells rng'].
    inversion E; inversion E0; reflexivity.
Qed.

End TerrainFacts.

(** C1. Determinism of the two hooks, for every random stream.
    Terrain: two tasks of one class constructed with the same [seed],
    [x_min] and [x_max] insert one and the same ordered sequence of props
    and placements, on any simulator, whatever it already holds; and two
    successive calls on one task insert that sequence twice.
    Perturbation: two tasks with the same [noise_seed], [force_std] and
    [torque_std] apply, at the same step index, the same force and torque,
    whatever the two simulators went through before. *)
Theorem terrain_and_noise_are_reproducible :
  forall (R : NumpyRandom),
    (forall v kw1 kw2 task1 task2,
        construct v kw1 = Ok task1 ->
        construct v kw2 = Ok task2 ->
        same_terrain_arguments kw1 kw2 ->
        exists placements,
          inserts (add_terrain task1) placements /\
          inserts (add_terrain task2) placements)
    /\
    (forall task,
        exists placements,
          inserts (add_terrain task) placements /\
          inserts (add_terrain task ;; add_terrain task)
                  (placements ++ placements))
    /\
    (forall task1 task2 k sim1 sim2,
        same_noise_configuration (base task1) (base task2) ->
        rd.robot_count sim1 = 1%Z ->
        rd.robot_count sim2 = 1%Z ->
        exists w,
          add_noise task1 k sim1 = (Ok tt, append_wrench sim1 w) /\
          add_noise task2 k sim2 = (Ok tt, append_wrench sim2 w)).
Proof.
  intros R. split; [|split].
  - intros v kw1 kw2 task1 task2 H1 H2 Hargs.
    exists (layout task1). split; [apply add_terrain_inserts|].
    rewrite (construct_layout v kw1 kw2 task1 task2 H1 H2 Hargs).
    apply add_terrain_inserts.
  - intros task. exists (layout task).
    split; [apply add_terrain_inserts|].
    apply inserts_seq; apply add_terrain_inserts.
  - intros task1 task2 k sim1 sim2 (Hseed & Hforce & Htorque) Hc1 Hc2.
    exists (noise_wrench (base task1) k). unfold add_noise.
    split; [now apply add_noise_one_robot|].
    rewrite add_noise_one_robot by exact Hc2.
    unfold noise_wrench. now rewrite Hseed, Hforce, Htorque.
Qed.

(* ================================================================= *)
(** ** The hill terrain *)

Section HillFacts.
Context {R : NumpyRandom}.

Lemma variates_app (rng : stream) (n m : nat) :
  variates rng (n + m) = variates rng n ++ variates (advance rng n) m.
Proof.
  revert rng. induction n as [|n IH]; intros rng; simpl.
  - reflexivity.
  - destruct (gauss rng) as [g rng'] eqn:E. simpl. now rewrite IH.
Qed.

Lemma normal_size2_rows (rng : stream) (loc scale : Q) (rows cols : nat) :
  let grid := fst (normal_size2 rng loc scale rows cols) in
  List.length grid = rows /\
  Forall (fun row => List.length row = cols) grid /\
  List.concat grid = map (fun g => loc + scale * g) (variates rng (rows * cols)%nat).
Proof.
  revert rng. induction rows as [|rows IH]; intros rng.
  - simpl. repeat split. constructor.
  - cbn [normal_size2].
    rewrite normal_size_variates.
    destruct (normal_size2 (advance rng cols) loc scale rows cols)
      as [others rng2] eqn:E.
    specialize (IH (advance rng cols)). rewrite E in IH.
    destruct IH as (Hlen & Hrows & Hcat).
    cbn [fst] in *. repeat split.
    + simpl. now rewrite Hlen.
    + constructor; [|exact Hrows].
      rewrite length_map. apply variates_length.
    + cbn [List.concat]. rewrite Hcat.
      change (S rows * cols)%nat with (cols + rows * cols)%nat.
      now rewrite variates_app, map_app.
Qed.


End HillFacts.


(* ================================================================= *)
(** ** Platforms as intervals *)

Lemma combine_map_same {A B C} (f : A -> B) (g : A -> C) (l : list A) :
  combine (map f l) (map g l) = map (fun a => (f a, g a)) l.
Proof.
  induction l as [|a l IH]; simpl; [reflexivity | now rewrite IH].
Qed.

(** The centres and boxes computed by a constructor, interval by interval. *)
Lemma platforms_of_intervals (lo hi : list Q) :
  combine (GapTerrainTask.centers_of lo hi)
          (map GapTerrainTask.platform_of (GapTerrainTask.half_widths_of lo hi))
  = map box_of (combine lo hi).
Proof.
  unfold GapTerrainTask.centers_of, GapTerrainTask.half_widths_of, map2.
  rewrite map_map. apply combine_map_same.
Qed.

Lemma combine_chain (a b : Q) (edges : list Q) :
  combine (a :: edges) (edges ++ [b]) = chain a edges b.
Proof.
  revert a. induction edges as [|e rest IH]; intros a; simpl.
  - reflexivity.
  - f_equal. apply IH.
Qed.

Lemma combine_gap_chain (a b : Q) (gaps : list (Q * Q)) :
  combine (a :: map (fun p => fst p + 0.5 * snd p) gaps)
          (map (fun p => fst p - 0.5 * snd p) gaps ++ [b])
  = gap_chain a gaps b.
Proof.
  revert a. induction gaps as [|[c w] rest IH]; intros a; simpl.
  - reflexivity.
  - f_equal. apply IH.
Qed.

Lemma chain_length (a b : Q) (edges : list Q) :
  List.length (chain a edges b) = S (List.length edges).
Proof.
  revert a. induction edges as [|e rest IH]; intros a; simpl;
    [reflexivity | now rewrite IH].
Qed.

Lemma gap_chain_length (a b : Q) (gaps : list (Q * Q)) :
  List.length (gap_chain a gaps b) = S (List.length gaps).
Proof.
  revert a. induction gaps as [|[c w] rest IH]; intros a; simpl;
    [reflexivity | now rewrite IH].
Qed.

Lemma box_of_spans (iv : Q * Q) (y : Q) :
  spans (rd.mk_placed (snd (box_of iv)) [fst (box_of iv); y; 0.0] upright) iv.
Proof.
  destruct iv as [a b].
  unfold spans, left_edge, right_edge, center, half_width, box_of. simpl.
  split; lra.
Qed.

Section PlacedFacts.
Context {R : NumpyRandom}.

Lemma gap_placed_spans (ivs : list (Q * Q)) (i : nat) (rng : stream) :
  Forall2 spans (gap_placed (enumerate_from i (map box_of ivs)) rng) ivs.
Proof.
  revert i rng. induction ivs as [|iv rest IH]; intros i rng; simpl.
  - constructor.
  - destruct (normal rng 0.0 (0.01 * of_nat i)) as [dy rng'].
    constructor; [|apply IH].
    exact (box_of_spans iv (-1.0 + dy)).
Qed.


(** The constructors, read backwards. *)
Lemma gap_init_inv (kw : kwargs) (t : GapTerrainTask.t) :
  GapTerrainTask.__init__ kw = Ok t ->
  exists x_min x_max seed base,
    arg_float "x_min" (-20.0) kw = Ok x_min /\
    arg_float "x_max" 20.0 kw = Ok x_max /\
    arg_int "seed" 0 kw = Ok seed /\
    let centers := GapTerrainTask.gap_centers seed x_max in
    let widths := GapTerrainTask.gap_widths centers in
    let lo := GapTerrainTask.platform_x_min x_min centers widths in
    let hi := GapTerrainTask.platform_x_max x_max centers widths in
    t = GapTerrainTask.mk base seed
          (GapTerrainTask.centers_of lo hi)
          (map GapTerrainTask.platform_of (GapTerrainTask.half_widths_of lo hi))
          (0.5 * (x_min + x_max))
          (rd.Prop_ rd.BOX 0.0 0.5 [0.5 * (x_max - x_min); 1.0; 10.0]).
Proof.
  unfold GapTerrainTask.__init__. intros H. do 4 peel H.
  inversion H. now exists a, a0, a1, a2.
Qed.

Lemma stepped_init_inv (kw : kwargs) (t : SteppedTerrainTask.t) :
  SteppedTerrainTask.__init__ kw = Ok t ->
  exists x_min x_max seed base,
    arg_float "x_min" (-20.0) kw = Ok x_min /\
    arg_float "x_max" 20.0 kw = Ok x_max /\
    arg_int "seed" 0 kw = Ok seed /\
    let edges := SteppedTerrainTask.edge_x seed x_max in
    let lo := SteppedTerrainTask.platform_x_min x_min edges in
    let hi := SteppedTerrainTask.platform_x_max x_max edges in
    t = SteppedTerrainTask.mk base seed
          (GapTerrainTask.centers_of lo hi)
          (map GapTerrainTask.platform_of (GapTerrainTask.half_widths_of lo hi)).
Proof.
  unfold SteppedTerrainTask.__init__. intros H. do 4 peel H.
  inversion H. now exists a, a0, a1, a2.
Qed.

(** The platforms of a constructed gap terrain span, in order, the
    intervals left by its gaps. *)
Lemma gap_platforms_span (x_min x_max : Q) (seed : Z) (base : ForwardSpeedTask.t) :
  let centers := GapTerrainTask.gap_centers seed x_max in
  let widths := GapTerrainTask.gap_widths centers in
  let lo := GapTerrainTask.platform_x_min x_min centers widths in
  let hi := GapTerrainTask.platform_x_max x_max centers widths in
  forall fx fl,
    Forall2 spans
      (gap_platforms
         (GapTerrainTask.mk base seed
            (GapTerrainTask.centers_of lo hi)
            (map GapTerrainTask.platform_of (GapTerrainTask.half_widths_of lo hi))
            fx fl))
      (gap_chain x_min (combine centers widths) x_max).
Proof.
  intros centers widths lo hi fx fl.
  unfold gap_platforms. cbn [GapTerrainTask.platform_x GapTerrainTask.platforms
                             GapTerrainTask.seed].
  rewrite platforms_of_intervals.
  subst lo hi.
  unfold GapTerrainTask.platform_x_min, GapTerrainTask.platform_x_max,
    np.concatenate, map2.
  cbn [app]. rewrite combine_gap_chain.
  apply gap_placed_spans.
Qed.


End PlacedFacts.

(* ================================================================= *)
(** ** Ordered intervals *)

Lemma nondecreasing_tail (a : Q) (l : list Q) :
  nondecreasing (a :: l) -> nondecreasing l.
Proof.
  destruct l as [|b l]; simpl; [trivial | intros [_ H]; exact H].
Qed.



Lemma ordered_after (iv : Q * Q) (rest : list (Q * Q)) :
  ordered (iv :: rest) -> Forall (fun later => snd iv <= fst later) rest.
Proof.
  revert iv. induction rest as [|next rest IH]; intros iv H.
  - constructor.
  - destruct H as (_ & Hnext & Hrest).
    constructor; [exact Hnext|].
    specialize (IH next Hrest).
    revert IH. apply Forall_impl. intros later Hlater.
    destruct Hrest as (Hn & _).
    apply Qle_trans with (y := fst next); [exact Hnext|].
    apply Qle_trans with (y := snd next); [exact Hn | exact Hlater].
Qed.

Lemma spans_after (p : rd.placed) (iv : Q * Q)
      (ps : list rd.placed) (ivs : list (Q * Q)) :
  spans p iv ->
  Forall2 spans ps ivs ->
  Forall (fun later => snd iv <= fst later) ivs ->
  Forall (fun q => right_edge p <= left_edge q) ps.
Proof.
  intros [_ Hp] H2. induction H2 as [|q jv ps ivs [Hq _] _ IH]; intros Hall.
  - constructor.
  - inversion Hall as [|? ? Hjv Hrest]; subst.
    constructor; [|apply IH; exact Hrest].
    rewrite Hp, Hq. exact Hjv.
Qed.

Lemma ordered_non_overlapping (ps : list rd.placed) (ivs : list (Q * Q)) :
  Forall2 spans ps ivs -> ordered ivs ->
  non_overlapping ps /\ Forall (fun pl => 0 <= half_width pl) ps.
Proof.
  unfold non_overlapping.
  intros H2. induction H2 as [|p iv ps ivs Hp Hrest IH]; intros Hord.
  - split; constructor.
  - pose proof (ordered_after iv ivs Hord) as Hafter.
    destruct Hord as (Hiv & _ & Hord). destruct (IH Hord) as [IH1 IH2].
    split; constructor; try assumption.
    + eapply spans_after; eassumption.
    + destruct Hp as [Hl Hr]. unfold left_edge, right_edge in Hl, Hr. lra.
Qed.



(* ================================================================= *)
(** ** Heights of the stepped terrain *)

Lemma of_nat_S (i : nat) : of_nat (S i) == of_nat i + 1.
Proof.
  unfold of_nat. rewrite Nat2Z.inj_succ. unfold Z.succ.
  rewrite inject_Z_plus. reflexivity.
Qed.

Lemma of_nat_nonneg (i : nat) : 0 <= of_nat i.
Proof.
  unfold of_nat. change 0 with (inject_Z 0). rewrite <- Zle_Qle. lia.
Qed.


Lemma step_std_0 : step_std 0 == 0.
Proof.
  unfold step_std, py_min, of_nat. simpl.
  destruct (Qlt_le_dec 0.1 (0.015 * inject_Z 0)) as [H|H].
  - unfold inject_Z in H. lra.
  - unfold inject_Z. lra.
Qed.

Section HeightFacts.
Context {R : NumpyRandom}.

Lemma stepped_placed_heights (xs : list (Q * rd.prop)) (i0 : nat) (y : Q)
      (rng : stream) :
  let ps := stepped_placed (enumerate_from i0 xs) y rng in
  List.length ps = List.length xs /\
  (forall p, nth_error ps 0 = Some p -> height p = y) /\
  (forall k p q,
      nth_error ps k = Some p -> nth_error ps (S k) = Some q ->
      height q =
      height p + (0.0 + step_std (i0 + k)
                        * nth k (variates rng (List.length xs)) 0)).
Proof.
  revert i0 y rng. induction xs as [|[x platform] rest IH]; intros i0 y rng.
  - simpl. split; [reflexivity|].
    split; [discriminate | intros [|k] p q Hp; discriminate].
  - cbn [enumerate_from stepped_placed List.length variates].
    unfold normal. destruct (gauss rng) as [g rng'].
    destruct (IH (S i0) (y + (0.0 + py_min (0.015 * of_nat i0) 0.1 * g)) rng')
      as (Hlen & Hhead & Hstep). clear IH.
    cbv zeta in *. split; [simpl; now rewrite Hlen|]. split.
    + intros p Hp. simpl in Hp. inversion Hp. reflexivity.
    + intros [|k] p q Hp Hq.
      * simpl in Hp. inversion Hp; subst p. simpl in Hq.
        rewrite (Hhead q Hq). rewrite Nat.add_0_r. reflexivity.
      * simpl in Hp, Hq. rewrite (Hstep k p q Hp Hq).
        rewrite Nat.add_succ_r. reflexivity.
Qed.

Lemma gap_placed_head (x : Q) (platform : rd.prop)
      (rest : list (nat * (Q * rd.prop))) (rng : stream) :
  exists p others,
    gap_placed ((0%nat, (x, platform)) :: rest) rng = p :: others /\
    rd.placed_prop p = platform /\
    height p == -1.
Proof.
  simpl. unfold normal. destruct (gauss rng) as [g rng'].
  eexists. eexists. split; [reflexivity|]. split; [reflexivity|].
  unfold height, of_nat. simpl. unfold inject_Z. lra.
Qed.

End HeightFacts.

(* ================================================================= *)
(** ** The stepped terrain *)

Lemma arange_length (start stop step : Q) :
  List.length (np.arange start stop step)
  = Z.to_nat (Qceiling ((stop - start) / step)).
Proof.
  unfold np.arange. now rewrite length_map, length_seq.
Qed.

Lemma map2_length {A B C} (f : A -> B -> C) (xs : list A) (ys : list B) :
  List.length xs = List.length ys ->
  List.length (map2 f xs ys) = List.length xs.
Proof.
  intros H. unfold map2. rewrite length_map, length_combine, <- H.
  apply Nat.min_id.
Qed.

Lemma arange_from_zero_nonempty (x_max : Q) :
  0 < x_max -> (1 <= List.length (np.arange 0.0 x_max 0.5))%nat.
Proof.
  intros Hpos. rewrite arange_length.
  assert (Hq : 0 < (x_max - 0.0) / 0.5).
  { assert (E : (x_max - 0.0) / 0.5 == 2 * x_max) by (field; lra).
    rewrite E. lra. }
  pose proof (Qle_ceiling ((x_max - 0.0) / 0.5)) as Hc.
  assert (Hz : (0 < Qceiling ((x_max - 0.0) / 0.5))%Z).
  { rewrite Zlt_Qlt. change (inject_Z 0) with 0. lra. }
  lia.
Qed.

Section SteppedFacts.
Context {R : NumpyRandom}.

(** The edges: 0, 0.5, 1, ... below [x_max], edge [i] moved by
    [0 + 0.1 * g_i] for the [i]-th variate of the stream seeded with
    [seed]. *)
Lemma edge_x_variates (seed : Z) (x_max : Q) :
  SteppedTerrainTask.edge_x seed x_max =
  map2 Qplus (np.arange 0.0 x_max 0.5)
       (map (fun g => 0.0 + 0.1 * g)
            (variates (RandomState seed)
                      (List.length (np.arange 0.0 x_max 0.5)))).
Proof.
  unfold SteppedTerrainTask.edge_x. rewrite normal_size_variates. reflexivity.
Qed.

Lemma edge_x_length (seed : Z) (x_max : Q) :
  List.length (SteppedTerrainTask.edge_x seed x_max)
  = List.length (np.arange 0.0 x_max 0.5).
Proof.
  rewrite edge_x_variates. apply map2_length.
  now rewrite length_map, variates_length.
Qed.

Lemma stepped_layout (x_min x_max : Q) (seed : Z) (base : ForwardSpeedTask.t) :
  let edges := SteppedTerrainTask.edge_x seed x_max in
  let lo := SteppedTerrainTask.platform_x_min x_min edges in
  let hi := SteppedTerrainTask.platform_x_max x_max edges in
  layout
    (Stepped
       (SteppedTerrainTask.mk base seed
          (GapTerrainTask.centers_of lo hi)
          (map GapTerrainTask.platform_of (GapTerrainTask.half_widths_of lo hi))))
  = stepped_placed
      (enumerate_from 0 (map box_of (chain x_min edges x_max)))
      (-1.0) (RandomState seed).
Proof.
  intros edges lo hi.
  cbn [layout SteppedTerrainTask.platform_x SteppedTerrainTask.platforms
              SteppedTerrainTask.seed].
  rewrite platforms_of_intervals.
  subst lo hi.
  unfold SteppedTerrainTask.platform_x_min, SteppedTerrainTask.platform_x_max,
    np.concatenate.
  cbn [app]. now rewrite combine_chain.
Qed.

End SteppedFacts.



(* ================================================================= *)
(** ** The first platforms *)

Section FirstPlatforms.
Context {R : NumpyRandom}.


Lemma first_item (a b : Q) (l l' : list Q) :
  exists x platform rest,
    combine (GapTerrainTask.centers_of (a :: l) (l' ++ [b]))
            (map GapTerrainTask.platform_of
                 (GapTerrainTask.half_widths_of (a :: l) (l' ++ [b])))
    = (x, platform) :: rest /\
    nth_error (map GapTerrainTask.platform_of
                   (GapTerrainTask.half_widths_of (a :: l) (l' ++ [b]))) 0
    = Some platform.
Proof.
  destruct l' as [|e l']; simpl; eauto.
Qed.

Lemma gap_first_platform (kw : kwargs) (t : GapTerrainTask.t) :
  GapTerrainTask.__init__ kw = Ok t ->
  exists p rest,
    inserts (add_terrain (Gap t)) (p :: rest) /\
    Some (rd.placed_prop p) = nth_error (GapTerrainTask.platforms t) 0 /\
    height p == -1.
Proof.
  intros Hinit.
  destruct (gap_init_inv kw t Hinit)
    as (x_min & x_max & seed & b & _ & _ & _ & Ht).
  cbv zeta in Ht. subst t.
  match goal with
  | |- context [add_terrain (Gap ?t)] =>
      pose proof (add_terrain_inserts (Gap t)) as Hins
  end.
  cbn [layout GapTerrainTask.platform_x GapTerrainTask.platforms
              GapTerrainTask.seed GapTerrainTask.floor GapTerrainTask.floor_x]
    in Hins.
  cbn [GapTerrainTask.platforms].
  unfold GapTerrainTask.platform_x_min, GapTerrainTask.platform_x_max,
    np.concatenate in Hins |- *.
  cbn [app] in Hins |- *.
  match type of Hins with
  | context [combine (GapTerrainTask.centers_of (?a :: ?l) (?l' ++ [?b])) _] =>
      destruct (first_item a b l l') as (x & pf & rest & E & Hn)
  end.
  rewrite E in Hins. rewrite Hn. cbn [enumerate_from] in Hins.
  match type of Hins with
  | inserts _ (gap_placed ((0%nat, (x, pf)) :: ?items) ?rng ++ ?fl) =>
      destruct (gap_placed_head x pf items rng) as (p & others & Ep & Hp & Hy);
      rewrite Ep in Hins;
      exists p, (others ++ fl)
  end.
  split; [exact Hins|]. split; [now rewrite Hp | exact Hy].
Qed.

Lemma stepped_first_platforms (kw : kwargs) (t : SteppedTerrainTask.t) :
  SteppedTerrainTask.__init__ kw = Ok t ->
  exists p rest,
    inserts (add_terrain (Stepped t)) (p :: rest) /\
    height p == -1 /\
    (forall q others, rest = q :: others -> height q == -1) /\
    (forall x_max,
        arg_float "x_max" 20.0 kw = Ok x_max -> 0 < x_max ->
        exists q others, rest = q :: others).
Proof.
  intros Hinit.
  destruct (stepped_init_inv kw t Hinit)
    as (x_min & x_max & seed & b & _ & Hmax & _ & Ht).
  cbv zeta in Ht. subst t.
  match goal with
  | |- context [add_terrain (Stepped ?t)] =>
      pose proof (add_terrain_inserts (Stepped t)) as Hins
  end.
  rewrite stepped_layout in Hins.
  set (edges := SteppedTerrainTask.edge_x seed x_max) in *.
  pose proof (stepped_placed_heights
                (map box_of (chain x_min edges x_max)) 0 (-1.0)
                (RandomState seed)) as Hh.
  cbv zeta in Hh. destruct Hh as (Hlen & Hhead & Hstep).
  rewrite length_map, chain_length in Hlen.
  destruct (stepped_placed _ _ _) as [|p rest] eqn:E; [discriminate|].
  exists p, rest. split; [exact Hins|]. split.
  { rewrite (Hhead p eq_refl). lra. }
  split.
  { intros q others ->.
    rewrite (Hstep 0%nat p q eq_refl eq_refl), (Hhead p eq_refl).
    cbn [Nat.add]. rewrite step_std_0. lra. }
  intros x_max' Hmax' Hpos. rewrite Hmax in Hmax'. inversion Hmax'; subst x_max'.
  pose proof (arange_from_zero_nonempty x_max Hpos) as Hne.
  unfold edges in Hlen. rewrite edge_x_length in Hlen.
  destruct rest as [|q others]; [simpl in Hlen; lia|].
  now exists q, others.
Qed.

End FirstPlatforms.

(** C10. For every seed (and any other accepted keyword arguments):
    [GapTerrainTask.add_terrain] places platform 0 first, at height -1,
    its jitter being [0 + 0.01 * 0 * g]; [SteppedTerrainTask.add_terrain]
    places platform 0 at height -1 and platform 1, whenever there is one,
    at height -1 as well, the first increment being
    [0 + min(0.015 * 0, 0.1) * g]; and there is a platform 1 whenever
    [x_max] is positive, as it is by default. *)
Theorem first_platforms_at_minus_one :
  forall (R : NumpyRandom) (kw : kwargs),
    (forall t,
        GapTerrainTask.__init__ kw = Ok t ->
        exists p rest,
          inserts (add_terrain (Gap t)) (p :: rest) /\
          Some (rd.placed_prop p) = nth_error (GapTerrainTask.platforms t) 0 /\
          height p == -1)
    /\
    (forall t,
        SteppedTerrainTask.__init__ kw = Ok t ->
        exists p rest,
          inserts (add_terrain (Stepped t)) (p :: rest) /\
          height p == -1 /\
          (forall q others, rest = q :: others -> height q == -1) /\
          (forall x_max,
              arg_float "x_max" 20.0 kw = Ok x_max -> 0 < x_max ->
              exists q others, rest = q :: others)).
Proof.
  intros R kw. split; intros t Hinit.
  - exact (gap_first_platform kw t Hinit).
  - exact (stepped_first_platforms kw t Hinit).
Qed.

(* ================================================================= *)
(** ** The gap terrain *)

Lemma linspace_length (start stop : Q) (num : nat) :
  List.length (np.linspace start stop num) = num.
Proof.
  destruct num as [|[|div]]; try reflexivity.
  unfold np.linspace.
  rewrite length_app, length_map, length_seq. simpl. lia.
Qed.

Lemma map_snd_combine {A B} (xs : list A) (ys : list B) :
  List.length xs = List.length ys -> map snd (combine xs ys) = ys.
Proof.
  revert ys. induction xs as [|x xs IH]; intros [|y ys] H; simpl in *;
    try discriminate; [reflexivity|].
  f_equal. apply IH. lia.
Qed.

Lemma spans_total_width (ps : list rd.placed) (ivs : list (Q * Q)) :
  Forall2 spans ps ivs ->
  Qsum (map (fun pl => 2 * half_width pl) ps)
  == Qsum (map (fun iv => snd iv - fst iv) ivs).
Proof.
  induction 1 as [|p iv ps ivs [Hl Hr] _ IH]; simpl.
  - reflexivity.
  - unfold Qsum in *. unfold left_edge, right_edge in Hl, Hr. simpl. lra.
Qed.

Lemma gap_chain_total_width (a b : Q) (gaps : list (Q * Q)) :
  Qsum (map (fun iv => snd iv - fst iv) (gap_chain a gaps b))
  + Qsum (map snd gaps) == b - a.
Proof.
  revert a. induction gaps as [|[c w] rest IH]; intros a; simpl.
  - lra.
  - specialize (IH (c + 0.5 * w)). unfold Qsum in *. simpl. lra.
Qed.

Lemma default_gap_grid_eq : np.arange 0.5 20.0 1.0 = default_gap_grid.
Proof. vm_compute. reflexivity. Qed.

Lemma default_gap_widths_eq : np.linspace 0.1 0.5 20 = default_gap_widths.
Proof. vm_compute. reflexivity. Qed.

(** With moderate variates the default gaps leave intervals in order. *)
Lemma default_gaps_ordered (gs : list Q) :
  List.length gs = 20%nat ->
  Forall moderate gs ->
  ordered
    (gap_chain (-20.0)
       (combine (map2 Qplus default_gap_grid (map (fun g => 0.0 + 0.1 * g) gs))
                default_gap_widths)
       20.0).
Proof.
  intros Hlen Hall.
  do 20 (destruct gs as [|? gs]; [discriminate|]).
  destruct gs; [clear Hlen | discriminate].
  repeat match goal with
         | H : Forall moderate (_ :: _) |- _ =>
             let Hg := fresh "Hg" in
             inversion H as [|? ? Hg ?]; subst; clear H
         end.
  unfold moderate in *.
  unfold default_gap_grid, default_gap_widths, map2.
  cbn [map combine gap_chain ordered fst snd].
  repeat split; lra.
Qed.

Lemma default_widths_nondecreasing :
  nondecreasing default_gap_widths /\
  hd 0 default_gap_widths == 0.1 /\
  last default_gap_widths 0 == 0.5.
Proof.
  unfold default_gap_widths. cbn [nondecreasing hd last].
  repeat split; lra.
Qed.

Section GapFacts.
Context {R : NumpyRandom}.

Lemma gap_centers_variates (seed : Z) (x_max : Q) :
  GapTerrainTask.gap_centers seed x_max =
  map2 Qplus (np.arange 0.5 x_max 1.0)
       (map (fun g => 0.0 + 0.1 * g)
            (variates (RandomState seed)
                      (List.length (np.arange 0.5 x_max 1.0)))).
Proof.
  unfold GapTerrainTask.gap_centers. rewrite normal_size_variates. reflexivity.
Qed.

Lemma gap_centers_length (seed : Z) (x_max : Q) :
  List.length (GapTerrainTask.gap_centers seed x_max)
  = List.length (np.arange 0.5 x_max 1.0).
Proof.
  rewrite gap_centers_variates. apply map2_length.
  now rewrite length_map, variates_length.
Qed.

Lemma default_gap_count (seed : Z) :
  List.length (GapTerrainTask.gap_centers seed 20.0) = 20%nat.
Proof.
  rewrite gap_centers_length, default_gap_grid_eq. reflexivity.
Qed.

Lemma default_gap_widths_of (seed : Z) :
  GapTerrainTask.gap_widths (GapTerrainTask.gap_centers seed 20.0)
  = default_gap_widths.
Proof.
  unfold GapTerrainTask.gap_widths. rewrite default_gap_count.
  apply default_gap_widths_eq.
Qed.

End GapFacts.

(** C3. The gap terrain built with default arguments ([x_min = -20],
    [x_max = 20], [seed = 0]), for every random stream: there are 20 gaps
    and 21 platforms, one more than gaps; the platforms inserted by
    [add_terrain] span, in order, the intervals the gaps leave of
    [-20, 20]; twice the platforms' half-widths and the gap widths add up
    to the span 40 (exactly, so within 1e-6); and when the 20 variates
    drawn at construction are moderate (within 2.5 standard deviations),
    platforms and gaps alternate in x-order, no platform reaches into a
    later one and every half-width is non-negative. For every seed, the
    gap widths, in the order of the gaps, are non-decreasing, the first
    being 0.1 and the last 0.5. *)
Theorem gap_default_partition :
  forall (R : NumpyRandom),
  exists t,
    GapTerrainTask.__init__ [] = Ok t /\
    let centers := GapTerrainTask.gap_centers 0 20.0 in
    let widths := GapTerrainTask.gap_widths centers in
    let ps := gap_platforms t in
    let total := Qsum (map (fun pl => 2 * half_width pl) ps) + Qsum widths in
    inserts (add_terrain (Gap t))
            (ps ++ [rd.mk_placed (GapTerrainTask.floor t)
                                 [GapTerrainTask.floor_x t; -2.0; 0.0] upright]) /\
    List.length centers = 20%nat /\
    List.length widths = 20%nat /\
    List.length (GapTerrainTask.platforms t) = S (List.length centers) /\
    List.length ps = S (List.length widths) /\
    Forall2 spans ps (gap_chain (-20.0) (combine centers widths) 20.0) /\
    total == 20.0 - (-20.0) /\
    Qabs (total - 40) <= 0.000001 /\
    (Forall moderate (variates (RandomState 0) 20) ->
     ordered (gap_chain (-20.0) (combine centers widths) 20.0) /\
     non_overlapping ps /\ Forall (fun pl => 0 <= half_width pl) ps) /\
    (forall seed,
        let w := GapTerrainTask.gap_widths (GapTerrainTask.gap_centers seed 20.0) in
        nondecreasing w /\ hd 0 w == 0.1 /\ last w 0 == 0.5).
Proof.
  intros R. eexists. split; [reflexivity|].
  cbv zeta.
  pose proof (gap_platforms_span (-20.0) 20.0 0
                (ForwardSpeedTask.mk
                   (VFloat (1.0 / 240)) (VFloat 0.99) (VInt 16) (VInt 16)
                   (VInt 128) 0 10.0 0.0
                   (rd.mk_objective [-2.0; 0.0; 0.0] [0.0; 2.0; 0.0]
                                    [2.0; 0.0; 0.0]) 10.0)
                (0.5 * (-20.0 + 20.0))
                (rd.Prop_ rd.BOX 0.0 0.5 [0.5 * (20.0 - -20.0); 1.0; 10.0]))
    as Hspan.
  cbv zeta in Hspan.
  set (ps := gap_platforms _) in *.
  set (centers := GapTerrainTask.gap_centers 0 20.0) in *.
  set (widths := GapTerrainTask.gap_widths centers) in *.
  assert (Hc : List.length centers = 20%nat) by apply default_gap_count.
  assert (Hw : List.length widths = 20%nat)
    by (unfold widths, GapTerrainTask.gap_widths;
        rewrite linspace_length; exact Hc).
  assert (Htotal : Qsum (map (fun pl => 2 * half_width pl) ps) + Qsum widths
                   == 20.0 - -20.0).
  { rewrite (spans_total_width _ _ Hspan).
    pose proof (gap_chain_total_width (-20.0) 20.0 (combine centers widths)) as Ht.
    rewrite map_snd_combine in Ht by congruence. exact Ht. }
  split.
  { match goal with
    | |- inserts (add_terrain ?task) _ => apply (add_terrain_inserts task)
    end. }
  split; [exact Hc|]. split; [exact Hw|].
  split.
  { cbn [GapTerrainTask.platforms].
    unfold GapTerrainTask.half_widths_of, GapTerrainTask.platform_x_min,
      GapTerrainTask.platform_x_max, np.concatenate.
    rewrite length_map, map2_length;
      [simpl; rewrite map2_length; fold centers widths; [reflexivity|congruence]|].
    simpl. rewrite length_app, !map2_length by (fold centers widths; congruence).
    simpl. lia. }
  split.
  { rewrite (Forall2_length Hspan), gap_chain_length, length_combine.
    rewrite Hc, Hw. reflexivity. }
  split; [exact Hspan|].
  split; [exact Htotal|].
  split.
  { rewrite Htotal. vm_compute. discriminate. }
  split.
  { intros Hmod.
    assert (Hord : ordered (gap_chain (-20.0) (combine centers widths) 20.0)).
    { unfold widths, centers. rewrite default_gap_widths_of.
      rewrite gap_centers_variates, default_gap_grid_eq.
      apply default_gaps_ordered; [apply variates_length|exact Hmod]. }
    split; [exact Hord|].
    exact (ordered_non_overlapping _ _ Hspan Hord). }
  intros seed. rewrite default_gap_widths_of.
  apply default_widths_nondecreasing.
Qed.

(* ================================================================= *)
(** ** Constructors: keywords, failures, inherited fields *)

Lemma without_nil (kw : kwargs) : without [] kw = kw.
Proof.
  unfold without. induction kw as [|kv kw IH]; simpl; [reflexivity|].
  f_equal. exact IH.
Qed.

Lemma reject_unexpected_cases (params : list string) (kw : kwargs) :
  reject_unexpected params kw = Ok tt \/
  reject_unexpected params kw = Raise TypeError.
Proof.
  unfold reject_unexpected. destruct (forallb _ kw); auto.
Qed.

Lemma arg_int_raises (name : string) (default : Z) (kw : kwargs) (e : exn) :
  arg_int name default kw = Raise e -> e = TypeError.
Proof.
  unfold arg_int. destruct (lookup name kw) as [[n|x]|]; congruence.
Qed.

Lemma arg_float_returns (name : string) (default : Q) (kw : kwargs) :
  exists x, arg_float name default kw = Ok x.
Proof.
  unfold arg_float. destruct (lookup name kw) as [[n|x]|]; eauto.
Qed.

Lemma base_init_raises (kw : kwargs) (e : exn) :
  ForwardSpeedTask.__init__ kw = Raise e -> e = TypeError.
Proof.
  unfold ForwardSpeedTask.__init__. intros H.
  destruct (reject_unexpected_cases ForwardSpeedTask.params kw) as [E|E];
    rewrite E in H; cbn [bind_result] in H; [|congruence].
  cbv zeta in H.
  destruct (arg_int "noise_seed" 0 kw) as [s|e0] eqn:Es; cbn [bind_result] in H;
    [|apply arg_int_raises in Es; congruence].
  destruct (arg_float_returns "force_std" 10.0 kw) as [f Ef].
  destruct (arg_float_returns "torque_std" 0.0 kw) as [q Eq].
  rewrite Ef, Eq in H. cbn [bind_result] in H. discriminate.
Qed.

(** What the base constructor stores, read from the keywords. *)
Lemma base_init_fields (kw : kwargs) (self : ForwardSpeedTask.t) :
  ForwardSpeedTask.__init__ kw = Ok self ->
  reject_unexpected ForwardSpeedTask.params kw = Ok tt /\
  arg_int "noise_seed" 0 kw = Ok (ForwardSpeedTask.noise_seed self) /\
  arg_float "force_std" 10.0 kw = Ok (ForwardSpeedTask.force_std self) /\
  arg_float "torque_std" 0.0 kw = Ok (ForwardSpeedTask.torque_std self) /\
  ForwardSpeedTask.objective_fn self =
    rd.mk_objective [-2.0; 0.0; 0.0] [0.0; 2.0; 0.0] [2.0; 0.0; 0.0].
Proof.
  unfold ForwardSpeedTask.__init__. intros H.
  destruct (reject_unexpected ForwardSpeedTask.params kw) as [[]|] eqn:Hrej;
    cbn [bind_result] in H; [|discriminate].
  cbv zeta in H. do 3 peel H. inversion H; subst self; clear H.
  cbn [ForwardSpeedTask.noise_seed ForwardSpeedTask.force_std
       ForwardSpeedTask.torque_std ForwardSpeedTask.objective_fn].
  repeat split; assumption || reflexivity.
Qed.

Section InheritedFacts.
Context {R : NumpyRandom}.

(** Every class hands the keywords it does not declare to the base
    constructor. *)
Lemma construct_base (v : variant) (kw : kwargs) (task : Task) :
  construct v kw = Ok task ->
  ForwardSpeedTask.__init__ (without (own_params v) kw) = Ok (base task).
Proof.
  intros H. destruct v; unfold construct in H; peel H;
    inversion H; subst task; clear H; cbn [base own_params].
  - unfold FlatTerrainTask.__init__ in E. peel E. inversion E; subst.
    now rewrite without_nil.
  - unfold RidgedTerrainTask.__init__ in E. do 2 peel E. now inversion E; subst.
  - unfold GapTerrainTask.__init__ in E. do 4 peel E. now inversion E; subst.
  - unfold SteppedTerrainTask.__init__ in E. do 4 peel E. now inversion E; subst.
  - unfold FrozenLakeTask.__init__ in E. peel E. inversion E; subst.
    now rewrite without_nil.
  - unfold HillTerrainTask.__init__ in E. do 2 peel E.
    destruct (normal_size2 _ _ _ _ _) as [cells rng'].
    now inversion E; subst.
Qed.

Lemma construct_raises (v : variant) (kw : kwargs) (e : exn) :
  construct v kw = Raise e -> e = TypeError.
Proof.
  intros H. destruct v; unfold construct in H.
  - unfold FlatTerrainTask.__init__ in H.
    destruct (ForwardSpeedTask.__init__ kw) eqn:E; cbn [bind_result] in H;
      [discriminate|]. apply base_init_raises in E. congruence.
  - unfold RidgedTerrainTask.__init__ in H.
    destruct (arg_int "seed" 0 kw) eqn:Es; cbn [bind_result] in H;
      [|apply arg_int_raises in Es; congruence].
    destruct (ForwardSpeedTask.__init__ _) eqn:E; cbn [bind_result] in H;
      [discriminate|]. apply base_init_raises in E. congruence.
  - unfold GapTerrainTask.__init__ in H.
    destruct (arg_float_returns "x_min" (-20.0) kw) as [a Ea].
    destruct (arg_float_returns "x_max" 20.0 kw) as [b Eb].
    rewrite Ea, Eb in H. cbn [bind_result] in H.
    destruct (arg_int "seed" 0 kw) eqn:Es; cbn [bind_result] in H;
      [|apply arg_int_raises in Es; congruence].
    destruct (ForwardSpeedTask.__init__ _) eqn:E; cbn [bind_result] in H;
      [discriminate|]. apply base_init_raises in E. congruence.
  - unfold SteppedTerrainTask.__init__ in H.
    destruct (arg_float_returns "x_min" (-20.0) kw) as [a Ea].
    destruct (arg_float_returns "x_max" 20.0 kw) as [b Eb].
    rewrite Ea, Eb in H. cbn [bind_result] in H.
    destruct (arg_int "seed" 0 kw) eqn:Es; cbn [bind_result] in H;
      [|apply arg_int_raises in Es; congruence].
    destruct (ForwardSpeedTask.__init__ _) eqn:E; cbn [bind_result] in H;
      [discriminate|]. apply base_init_raises in E. congruence.
  - unfold FrozenLakeTask.__init__ in H.
    destruct (ForwardSpeedTask.__init__ kw) eqn:E; cbn [bind_result] in H;
      [discriminate|]. apply base_init_raises in E. congruence.
  - unfold HillTerrainTask.__init__ in H.
    destruct (arg_int "seed" 0 kw) eqn:Es; cbn [bind_result] in H;
      [|apply arg_int_raises in Es; congruence].
    destruct (ForwardSpeedTask.__init__ _) eqn:E; cbn [bind_result] in H;
      [|apply base_init_raises in E; congruence].
    destruct (normal_size2 _ _ _ _ _) as [cells rng']. discriminate.
Qed.

Lemma own_params_not_base (v : variant) (name : string) :
  mem name (accepted v) = false ->
  mem name (own_params v) = false /\ mem name ForwardSpeedTask.params = false.
Proof.
  unfold accepted, mem. rewrite existsb_app. apply orb_false_elim.
Qed.

End InheritedFacts.

(** X1. A keyword that the class does not accept (neither one of its own
    parameters nor one of the base class's) makes the constructor raise
    [TypeError], for every class: the base constructor takes no
    [**kwargs]. So [seed] is refused by the flat and frozen-lake classes,
    and [x_min] by the ridged and hill classes. *)
Theorem unexpected_keyword_raises :
  forall (R : NumpyRandom) (v : variant) (kw : kwargs) (name : string),
    lookup name kw <> None ->
    mem name (accepted v) = false ->
    construct v kw = Raise TypeError.
Proof.
  intros R v kw name Hin Hname.
  destruct (own_params_not_base v name Hname) as [Hown Hbase].
  destruct (construct v kw) as [task|e] eqn:E.
  - exfalso. apply Hin.
    apply construct_base in E. apply base_init_fields in E.
    destruct E as (Hrej & _).
    rewrite <- (lookup_without (own_params v) kw name Hown).
    eapply reject_unexpected_lookup; eassumption.
  - apply construct_raises in E. now subst e.
Qed.

(** X2. Whatever class is constructed and with whatever keywords, the
    objective returned by [get_objective_fn] has the weights
    (-2, 0, 0), (0, 2, 0) and (2, 0, 0). *)
Theorem objective_weights_are_fixed :
  forall (R : NumpyRandom) (v : variant) (kw : kwargs) (task : Task),
    construct v kw = Ok task ->
    let objective := ForwardSpeedTask.get_objective_fn (base task) in
    rd.base_dir_weight objective = [-2.0; 0.0; 0.0] /\
    rd.base_up_weight objective = [0.0; 2.0; 0.0] /\
    rd.base_vel_weight objective = [2.0; 0.0; 0.0].
Proof.
  intros R v kw task H objective. subst objective.
  apply construct_base in H. apply base_init_fields in H.
  destruct H as (_ & _ & _ & _ & Hobj).
  unfold ForwardSpeedTask.get_objective_fn. rewrite Hobj. repeat split.
Qed.


(* ================================================================= *)
(** ** The two hooks together *)

Lemma append_commute (sim : rd.Sim) (placements : list rd.placed) (w : rd.wrench) :
  append_wrench (append_props sim placements) w
  = append_props (append_wrench sim w) placements.
Proof. reflexivity. Qed.


(** X5. The stream of a step is seeded with the sum [noise_seed + k]
    alone: two tasks with the same standard deviations apply the same
    force and torque whenever their sums agree, so step [k + 1] under
    seed [s] repeats step [k] under seed [s + 1]. *)
Theorem noise_depends_on_seed_plus_step :
  forall (R : NumpyRandom) (task1 task2 : Task) (k1 k2 : Z)
         (sim1 sim2 : rd.Sim),
    (ForwardSpeedTask.noise_seed (base task1) + k1
     = ForwardSpeedTask.noise_seed (base task2) + k2)%Z ->
    ForwardSpeedTask.force_std (base task1)
    = ForwardSpeedTask.force_std (base task2) ->
    ForwardSpeedTask.torque_std (base task1)
    = ForwardSpeedTask.torque_std (base task2) ->
    rd.robot_count sim1 = 1%Z ->
    rd.robot_count sim2 = 1%Z ->
    exists w,
      add_noise task1 k1 sim1 = (Ok tt, append_wrench sim1 w) /\
      add_noise task2 k2 sim2 = (Ok tt, append_wrench sim2 w).
Proof.
  intros R task1 task2 k1 k2 sim1 sim2 Hsum Hf Hq Hc1 Hc2.
  exists (noise_wrench (base task1) k1). unfold add_noise.
  split; [now apply add_noise_one_robot|].
  rewrite add_noise_one_robot by exact Hc2.
  unfold noise_wrench. now rewrite Hsum, Hf, Hq.
Qed.



(* ================================================================= *)
(** ** The ridged terrain *)

Lemma of_nat_lt (i j : nat) : (i < j)%nat -> of_nat i + 1 <= of_nat j.
Proof.
  intros H. unfold of_nat. change 1 with (inject_Z 1).
  rewrite <- inject_Z_plus, <- Zle_Qle. lia.
Qed.

Lemma of_nat_le (i j : nat) : (i <= j)%nat -> of_nat i <= of_nat j.
Proof.
  intros H. unfold of_nat. rewrite <- Zle_Qle. lia.
Qed.

Section RidgedFacts.
Context {R : NumpyRandom}.



End RidgedFacts.



(* ================================================================= *)
(** ** The gap terrain for all arguments *)




Section GapGeneralFacts.
Context {R : NumpyRandom}.



Lemma nth_error_map_inv {A B} (f : A -> B) (l : list A) (i : nat) (y : B) :
  nth_error (map f l) i = Some y ->
  exists x, nth_error l i = Some x /\ f x = y.
Proof.
  rewrite nth_error_map. destruct (nth_error l i) as [x|]; simpl; intros H;
    [|discriminate].
  inversion H. now exists x.
Qed.




End GapGeneralFacts.




(* ================================================================= *)
(** ** Short extents, bounded heights, the hill's stream, gap widths *)


Lemma nondecreasing_map_seq (f : nat -> Q) (b : Q) (m k : nat) :
  (forall i, f i <= f (S i)) ->
  (forall i, (i < k + m)%nat -> f i <= b) ->
  nondecreasing (map f (seq k m) ++ [b]).
Proof.
  intros Hstep. revert k. induction m as [|m IH]; intros k Hb.
  - exact I.
  - assert (Hrest : nondecreasing (map f (seq (S k) m) ++ [b])).
    { apply IH. intros i Hi. apply Hb. lia. }
    cbn [seq map app]. destruct m as [|m].
    + simpl. split; [apply Hb; lia | exact I].
    + cbn [seq map app] in Hrest |- *. split; [apply Hstep | exact Hrest].
Qed.

Section FurtherFacts.
Context {R : NumpyRandom}.

Lemma advance_add (rng : stream) (n m : nat) :
  advance rng (n + m) = advance (advance rng n) m.
Proof.
  revert rng. induction n as [|n IH]; intros rng; simpl; [reflexivity|].
  apply IH.
Qed.

Lemma normal_size2_advance (rng : stream) (loc scale : Q) (rows cols : nat) :
  snd (normal_size2 rng loc scale rows cols) = advance rng (rows * cols).
Proof.
  revert rng. induction rows as [|rows IH]; intros rng.
  - reflexivity.
  - cbn [normal_size2]. rewrite normal_size_variates.
    specialize (IH (advance rng cols)).
    destruct (normal_size2 (advance rng cols) loc scale rows cols)
      as [others rng2].
    cbn [snd] in *. rewrite IH.
    change (S rows * cols)%nat with (cols + rows * cols)%nat.
    now rewrite advance_add.
Qed.

Lemma hill_init_inv (kw : kwargs) (t : HillTerrainTask.t) :
  HillTerrainTask.__init__ kw = Ok t ->
  exists seed base,
    arg_int "seed" 0 kw = Ok seed /\
    t = HillTerrainTask.mk base seed
          (snd (normal_size2 (RandomState seed) 0.5 0.125 97 33))
          (rd.HeightfieldProp 0.5 [30.0; 0.25; 10.0]
             (map (map (fun c => np.clip c 0.0 1.0))
                  (fst (normal_size2 (RandomState seed) 0.5 0.125 97 33)))).
Proof.
  unfold HillTerrainTask.__init__. intros H. do 2 peel H.
  exists a, a0. split; [reflexivity|].
  destruct (normal_size2 (RandomState a) 0.5 0.125 97 33) as [cells rng'].
  inversion H. reflexivity.
Qed.

End FurtherFacts.



(** X15. The stream a hill task keeps in [self.rng] is the stream seeded
    with the task's seed after the 97 * 33 draws of the constructor; and
    [add_terrain] does not draw from it: with any other stream in the
    field the hook does the same. *)
Theorem hill_stream_is_spent_at_construction :
  forall (R : NumpyRandom) (kw : kwargs) (t : HillTerrainTask.t),
    HillTerrainTask.__init__ kw = Ok t ->
    HillTerrainTask.rng t
    = advance (RandomState (HillTerrainTask.seed t)) (97 * 33) /\
    forall (other : stream) (sim : rd.Sim),
      add_terrain
        (Hill (HillTerrainTask.mk (HillTerrainTask.base t)
                 (HillTerrainTask.seed t) other (HillTerrainTask.heightfield t)))
        sim
      = add_terrain (Hill t) sim.
Proof.
  intros R kw t Hinit.
  destruct (hill_init_inv kw t Hinit) as (seed & base & _ & Ht).
  split.
  - rewrite Ht. cbn [HillTerrainTask.rng HillTerrainTask.seed].
    apply normal_size2_advance.
  - intros other sim. reflexivity.
Qed.

(** X16. What the clipping of the hill's grid does: the cell drawn from
    the variate [g] is [0.5 + 0.125 * g] when [g] lies within 4 standard
    deviations, 0 when [g <= -4] and 1 when [4 <= g]. The grid has
    97 * 33 cells in all. *)
Theorem hill_cells_clip_at_four_sigma :
  forall (R : NumpyRandom) (kw : kwargs) (t : HillTerrainTask.t),
    HillTerrainTask.__init__ kw = Ok t ->
    let cells := List.concat (rd.heightfield (HillTerrainTask.heightfield t)) in
    let gs := variates (RandomState (HillTerrainTask.seed t)) (97 * 33) in
    List.length cells = (97 * 33)%nat /\
    forall j c,
      nth_error cells j = Some c ->
      let g := nth j gs 0 in
      (g <= -4 -> c == 0) /\
      (4 <= g -> c == 1) /\
      (-4 <= g <= 4 -> c == 0.5 + 0.125 * g).
Proof.
  intros R kw t Hinit cells gs.
  destruct (hill_init_inv kw t Hinit) as (seed & base & _ & Ht).
  assert (Hcells : cells = map (fun g => np.clip (0.5 + 0.125 * g) 0.0 1.0) gs).
  { subst cells gs. rewrite Ht.
    cbn [HillTerrainTask.heightfield HillTerrainTask.seed rd.HeightfieldProp
         rd.heightfield].
    destruct (normal_size2_rows (RandomState seed) 0.5 0.125 97 33)
      as (_ & _ & Hcat).
    rewrite <- concat_map, Hcat, map_map. reflexivity. }
  split.
  { rewrite Hcells, length_map. apply variates_length. }
  intros j c Hc g. subst g. rewrite Hcells in Hc.
  apply nth_error_map_inv in Hc. destruct Hc as (g & Hg & <-).
  rewrite (nth_error_nth _ _ 0 Hg).
  unfold np.clip.
  destruct (Q.max_spec (0.5 + 0.125 * g) 0.0) as [[Hlt Hm]|[Hle Hm]];
    destruct (Q.min_spec 1.0 (Qmax (0.5 + 0.125 * g) 0.0)) as [[Hlt' Hn]|[Hle' Hn]];
    rewrite Hn; try rewrite Hm; rewrite Hm in *; repeat split; intros; lra.
Qed.

(** X17. The gap widths, for any number of gaps: there is one width per
    gap; no gaps give no widths; a single gap has width 0.1 (not 0.5);
    with two gaps or more the widths run from 0.1 at the first gap to 0.5
    at the last. In every case the widths are non-decreasing and lie
    between 0.1 and 0.5. *)
Theorem gap_widths_grow :
  forall (centers : list Q),
    List.length (GapTerrainTask.gap_widths centers) = List.length centers /\
    nondecreasing (GapTerrainTask.gap_widths centers) /\
    Forall (fun w => 0.1 <= w <= 0.5) (GapTerrainTask.gap_widths centers) /\
    match centers with
    | [] => GapTerrainTask.gap_widths centers = []
    | [_] => GapTerrainTask.gap_widths centers = [0.1]
    | _ :: _ :: _ =>
        hd 0 (GapTerrainTask.gap_widths centers) == 0.1 /\
        last (GapTerrainTask.gap_widths centers) 0 == 0.5
    end.
Proof.
  intros centers. unfold GapTerrainTask.gap_widths.
  split; [apply linspace_length|].
  destruct centers as [|c1 [|c2 rest]].
  - simpl. repeat split. constructor.
  - simpl. repeat split. constructor; [lra|constructor].
  - set (k := List.length rest).
    change (List.length (c1 :: c2 :: rest)) with (S (S k)).
    cbn [np.linspace].
    set (d := of_nat (S k)).
    set (step := (0.5 - 0.1) / d).
    assert (Hd : 1 <= d).
    { pose proof (of_nat_lt 0 (S k) (Nat.lt_0_succ k)) as H.
      unfold of_nat at 1 in H. unfold inject_Z in H. simpl in H. fold d in H. lra. }
    assert (Hmul : step * d == 0.4) by (unfold step; field; lra).
    assert (Hstep0 : 0 <= step) by nra.
    assert (Hmono : forall i, of_nat i * step + 0.1 <= of_nat (S i) * step + 0.1).
    { intros i. rewrite of_nat_S. nra. }
    assert (Hup : forall i, (i < 0 + S k)%nat -> of_nat i * step + 0.1 <= 0.5).
    { intros i Hi. assert (Hle : of_nat i <= d) by (apply of_nat_le; lia). nra. }
    split; [apply nondecreasing_map_seq; assumption|].
    split.
    { apply Forall_app. split.
      - apply Forall_map, Forall_forall. intros i Hi.
        apply in_seq in Hi. pose proof (of_nat_nonneg i) as H0.
        split; [nra | apply Hup; lia].
      - constructor; [lra|constructor]. }
    split.
    + cbn [seq map app hd]. unfold of_nat, inject_Z. simpl. lra.
    + rewrite last_last. lra.
Qed.

(* ================================================================= *)
(** ** The stepped terrain: rises and edges *)


Section SteppedRiseFacts.
Context {R : NumpyRandom}.


End SteppedRiseFacts.


(* ================================================================= *)
(** ** The stepped terrain: widths *)




(* ================================================================= *)
(** ** The theorems at concrete inputs, on the replayed stream *)

Import Replay.

(** C1 at a concrete input. Two gap tasks built with the same seed, and
    other keywords in another order, insert one layout; and they apply the same force and torque at
    step 5 on an empty simulator and on one that already holds the
    terrain. *)
Lemma terrain_and_noise_are_reproducible_witness :
  exists (task1 task2 : @Task Replay.replay),
    construct GAP [("seed"%string, VInt 3); ("noise_seed"%string, VInt 7)]
    = Ok task1 /\
    construct GAP [("noise_seed"%string, VInt 7); ("horizon"%string, VInt 32);
                   ("seed"%string, VInt 3)]
    = Ok task2 /\
    (exists placements,
        inserts (add_terrain task1) placements /\
        inserts (add_terrain task2) placements) /\
    (exists w,
        add_noise task1 5 (rd.mk_sim 1 [] [])
        = (Ok tt, append_wrench (rd.mk_sim 1 [] []) w) /\
        add_noise task2 5 (rd.mk_sim 1 (layout task2) [])
        = (Ok tt, append_wrench (rd.mk_sim 1 (layout task2) []) w)).
Proof.
  destruct (terrain_and_noise_are_reproducible Replay.replay)
    as (Hterrain & _ & Hnoise).
  eexists. eexists.
  split; [reflexivity|]. split; [reflexivity|]. split.
  - apply (Hterrain GAP
             [("seed"%string, VInt 3); ("noise_seed"%string, VInt 7)]
             [("noise_seed"%string, VInt 7); ("horizon"%string, VInt 32);
              ("seed"%string, VInt 3)] _ _ eq_refl eq_refl).
    repeat split; reflexivity.
  - apply Hnoise; [|reflexivity|reflexivity].
    repeat split; reflexivity.
Defined.

(** C3 at a concrete input. On the replayed stream the variates of seed 0
    are moderate, so the default gap platforms do not overlap. *)
Lemma gap_default_partition_witness :
  exists t,
    @GapTerrainTask.__init__ Replay.replay [] = Ok t /\
    ordered
      (gap_chain (-20.0)
         (combine (GapTerrainTask.gap_centers 0 20.0)
                  (GapTerrainTask.gap_widths (GapTerrainTask.gap_centers 0 20.0)))
         20.0) /\
    non_overlapping (gap_platforms t) /\
    Forall (fun pl => 0 <= half_width pl) (gap_platforms t).
Proof.
  destruct (gap_default_partition Replay.replay) as (t & Hinit & Hrest).
  cbv zeta in Hrest.
  destruct Hrest as (_ & _ & _ & _ & _ & _ & _ & _ & Hmoderate & _).
  exists t. split; [exact Hinit|].
  apply Hmoderate.
  repeat (apply Forall_cons; [vm_compute; split; discriminate|]).
  apply Forall_nil.
Defined.



(** C9 at a concrete input: a gap task built with a seed has
    [result_bound] 10.0. *)
Lemma result_bound_is_constant_witness :
  exists (task : @Task Replay.replay),
    construct GAP [("seed"%string, VInt 1)] = Ok task /\
    ForwardSpeedTask.result_bound (base task) = 10.0.
Proof.
  eexists. split; [reflexivity|].
  apply (result_bound_is_constant Replay.replay GAP
           [("seed"%string, VInt 1)] _ eq_refl).
Defined.

(** C10 at a concrete input. The default gap and stepped tasks on the
    replayed stream: the first gap platform, and the first two stepped
    platforms, are at height -1. *)
Lemma first_platforms_at_minus_one_witness :
  (exists t p rest,
      @GapTerrainTask.__init__ Replay.replay [] = Ok t /\
      inserts (add_terrain (Gap t)) (p :: rest) /\
      height p == -1)
  /\
  (exists t p q rest,
      @SteppedTerrainTask.__init__ Replay.replay [] = Ok t /\
      inserts (add_terrain (Stepped t)) (p :: q :: rest) /\
      height p == -1 /\ height q == -1).
Proof.
  destruct (first_platforms_at_minus_one Replay.replay []) as [Hgap Hstepped].
  split.
  - destruct (Hgap _ eq_refl) as (p & rest & Hins & _ & Hy).
    eexists. exists p, rest. split; [reflexivity|]. split; [exact Hins | exact Hy].
  - destruct (Hstepped _ eq_refl) as (p & rest & Hins & Hp & Hq & Hsecond).
    destruct (Hsecond 20.0 eq_refl) as (q & others & ->); [reflexivity|].
    eexists. exists p, q, others. split; [reflexivity|].
    split; [exact Hins|]. split; [exact Hp|].
    exact (Hq q others eq_refl).
Defined.

(* ================================================================= *)
(** ** The further properties at concrete inputs *)

(** X1 at a concrete input: the flat class refuses [seed]. *)
Lemma unexpected_keyword_raises_witness :
  @construct Replay.replay FLAT [("seed"%string, VInt 1)] = Raise TypeError.
Proof.
  apply (unexpected_keyword_raises Replay.replay FLAT
           [("seed"%string, VInt 1)] "seed");
    [simpl; discriminate | reflexivity].
Defined.

(** X2 at a concrete input: the objective of a ridged task. *)
Lemma objective_weights_are_fixed_witness :
  exists (task : @Task Replay.replay),
    construct RIDGED [("seed"%string, VInt 2)] = Ok task /\
    rd.base_dir_weight (ForwardSpeedTask.get_objective_fn (base task))
    = [-2.0; 0.0; 0.0].
Proof.
  eexists. split; [reflexivity|].
  pose proof (objective_weights_are_fixed Replay.replay RIDGED
                [("seed"%string, VInt 2)] _ eq_refl) as H.
  cbv zeta in H. destruct H as (Hdir & _ & _). exact Hdir.
Defined.



(** X5 at a concrete input: seed 3 at step 4 and seed 5 at step 2. *)
Lemma noise_depends_on_seed_plus_step_witness :
  exists (task1 task2 : @Task Replay.replay) w,
    construct FLAT [("noise_seed"%string, VInt 3)] = Ok task1 /\
    construct FLAT [("noise_seed"%string, VInt 5)] = Ok task2 /\
    add_noise task1 4 (rd.mk_sim 1 [] [])
    = (Ok tt, append_wrench (rd.mk_sim 1 [] []) w) /\
    add_noise task2 2 (rd.mk_sim 1 [] [])
    = (Ok tt, append_wrench (rd.mk_sim 1 [] []) w).
Proof.
  destruct (@construct Replay.replay FLAT [("noise_seed"%string, VInt 3)])
    as [task1|e] eqn:E1; [|vm_compute in E1; discriminate].
  destruct (@construct Replay.replay FLAT [("noise_seed"%string, VInt 5)])
    as [task2|e] eqn:E2; [|vm_compute in E2; discriminate].
  destruct (noise_depends_on_seed_plus_step Replay.replay task1 task2 4 2
              (rd.mk_sim 1 [] []) (rd.mk_sim 1 [] []))
    as (w & Hrun1 & Hrun2);
    try (vm_compute in E1; vm_compute in E2;
         injection E1 as <-; injection E2 as <-; reflexivity).
  exists task1, task2, w.
  split; [reflexivity|]. split; [reflexivity|].
  split; [exact Hrun1 | exact Hrun2].
Defined.








(** X15 at a concrete input: the hill task of seed 4. *)
Lemma hill_stream_is_spent_at_construction_witness :
  exists t,
    @HillTerrainTask.__init__ Replay.replay [("seed"%string, VInt 4)] = Ok t /\
    HillTerrainTask.rng t
    = advance (RandomState (HillTerrainTask.seed t)) (97 * 33).
Proof.
  destruct (@HillTerrainTask.__init__ Replay.replay [("seed"%string, VInt 4)])
    as [t|e] eqn:E.
  - exists t. split; [reflexivity|].
    destruct (hill_stream_is_spent_at_construction Replay.replay _ t E)
      as [Hrng _].
    exact Hrng.
  - vm_compute in E. discriminate.
Defined.

(** X16 at a concrete input: the hill task of seed 4 has 3201 cells. *)
Lemma hill_cells_clip_at_four_sigma_witness :
  exists t,
    @HillTerrainTask.__init__ Replay.replay [("seed"%string, VInt 4)] = Ok t /\
    List.length (List.concat (rd.heightfield (HillTerrainTask.heightfield t)))
    = (97 * 33)%nat.
Proof.
  destruct (@HillTerrainTask.__init__ Replay.replay [("seed"%string, VInt 4)])
    as [t|e] eqn:E.
  - exists t. split; [reflexivity|].
    pose proof (hill_cells_clip_at_four_sigma Replay.replay _ t E) as H.
    cbv zeta in H. destruct H as [Hlen _]. exact Hlen.
  - vm_compute in E. discriminate.
Defined.



(* ================================================================= *)
(** ** The first heights in binary64 *)

Module Binary64Facts.
Import Floats Binary64.
#[local] Set Warnings "-inexact-float".

(** With a zero scale the draw is absorbed exactly: in binary64 too, the
    first gap platform is at -1.0 whatever ordinary variate is drawn. *)
Lemma gap_height_first (g : float) :
  ordinary g -> gap_height 0 g = (-1)%float.
Proof.
  unfold ordinary, gap_height. intros Hg.
  apply Prim2SF_inj. rewrite !add_spec, mul_spec.
  change (Prim2SF (0.01 * 0)) with (S754_zero false).
  destruct (Prim2SF g) as [s|s| |s m e]; try contradiction;
    destruct s; reflexivity.
Qed.

(** And the second stepped platform stays at the height of the first. *)
Lemma stepped_next_height_first (g : float) :
  ordinary g -> stepped_next_height (-1) 0 g = (-1)%float.
Proof.
  unfold ordinary, stepped_next_height. intros Hg.
  apply Prim2SF_inj. rewrite !add_spec, mul_spec.
  change (Prim2SF (min64 (0.015 * 0) 0.1)) with (S754_zero false).
  destruct (Prim2SF g) as [s|s| |s m e]; try contradiction;
    destruct s; reflexivity.
Qed.

End Binary64Facts.
